(** * creditai: the credit-report processing cloud function

    A shallow embedding of [credit-report-processor-gcf/main.py]: the
    HTTP entry point [process_credit_report], the four helper steps it
    drives, and the string surgery that removes a Markdown fence from a
    generative-model reply.

    Python values are modelled as they reach the code: a [str] is a
    [string] whose characters are code points below 256, [bytes] is a
    [list byte], anything that came out of [json.loads] is a [json]
    value, and a raised exception deriving from [Exception] is an
    [exn].  Every call that leaves the module (HTTP fetch, PDF reader,
    OCR, generative model, datastore) is an operation of the
    [Collaborators] interface and is recorded in a trace. *)

From Stdlib Require Import List String Ascii Bool Arith ZArith Lia PrimFloat.
From Stdlib Require Import Strings.Byte DecimalString.
Import ListNotations.

Local Open Scope list_scope.
Local Open Scope string_scope.
Local Set Warnings "-register-all".

(** ** Python [str] operations used by the source *)

Module PyStr.

(** [str.isspace] on one character, for code points below 256:
    TAB..CR, FS..US, SPACE, NEL (0x85) and NBSP (0xA0). *)
Definition is_space (c : ascii) : bool :=
  let n := nat_of_ascii c in
  ((9 <=? n)%nat && (n <=? 13)%nat) || ((28 <=? n)%nat && (n <=? 32)%nat)
  || (n =? 133)%nat || (n =? 160)%nat.

Fixpoint lstrip_chars (l : list ascii) : list ascii :=
  match l with
  | c :: l' => if is_space c then lstrip_chars l' else l
  | [] => []
  end.

Definition rstrip_chars (l : list ascii) : list ascii :=
  rev (lstrip_chars (rev l)).

Definition strip_chars (l : list ascii) : list ascii :=
  rstrip_chars (lstrip_chars l).

Fixpoint prefix_chars (p l : list ascii) : bool :=
  match p, l with
  | [], _ => true
  | a :: p', b :: l' => Ascii.eqb a b && prefix_chars p' l'
  | _ :: _, [] => false
  end.

(** [l[a:-b]] for constants [a >= 0] and [b > 0]: Python clamps both
    bounds to the string and returns the empty string when they cross. *)
Definition slice_chars (a b : nat) (l : list ascii) : list ascii :=
  firstn (List.length l - b - a) (skipn a l).

(** Nothing but white space. *)
Definition all_space (l : list ascii) : Prop :=
  Forall (fun c => is_space c = true) l.

Definition chars : string -> list ascii := list_ascii_of_string.
Definition str : list ascii -> string := string_of_list_ascii.

(** [s.strip()] *)
Definition strip (s : string) : string := str (strip_chars (chars s)).

(** [s.startswith(p)] *)
Definition startswith (p s : string) : bool := prefix_chars (chars p) (chars s).

(** [s.endswith(p)] *)
Definition endswith (p s : string) : bool :=
  prefix_chars (rev (chars p)) (rev (chars s)).

(** [s[a:-b]] *)
Definition slice (a b : nat) (s : string) : string :=
  str (slice_chars a b (chars s)).

End PyStr.

(** ** Fence stripping

    The block that precedes [json.loads] in
    [parse_credit_report_with_gemini] (main.py:180-184) and, verbatim
    again, in [detect_violations_with_gemini] (main.py:228-232):
<<
    json_str = response.text.strip()
    if json_str.startswith("```json") and json_str.endswith("```"):
        json_str = json_str[7:-3].strip()
    elif json_str.startswith("```") and json_str.endswith("```"):
        json_str = json_str[3:-3].strip()
>>
*)

Definition fence : string := "```".
Definition fence_json_tag : string := "```json".

Definition strip_code_fence (text : string) : string :=
  let json_str := PyStr.strip text in
  if PyStr.startswith fence_json_tag json_str && PyStr.endswith fence json_str
  then PyStr.strip (PyStr.slice 7 3 json_str)
  else if PyStr.startswith fence json_str && PyStr.endswith fence json_str
  then PyStr.strip (PyStr.slice 3 3 json_str)
  else json_str.

(** A reply is fence-shaped when, once stripped of surrounding white
    space, it both starts and ends with three backticks; this is the
    disjunction of the two guards above. *)
Definition fenced (text : string) : bool :=
  let json_str := PyStr.strip text in
  PyStr.startswith fence json_str && PyStr.endswith fence json_str.

Definition nl : string := String (ascii_of_nat 10) EmptyString.

(** The two Markdown wrappers a generative model puts around JSON. *)
Definition wrap_json (s : string) : string :=
  fence_json_tag ++ nl ++ s ++ nl ++ fence.

Definition wrap_plain (s : string) : string :=
  fence ++ nl ++ s ++ nl ++ fence.

Definition backtick : ascii := "`"%char.
Definition newline : ascii := ascii_of_nat 10.

(** The characters of a body between an opening marker that starts
    with a backtick and the closing three backticks. *)
Definition delimited (tag body : list ascii) : list ascii :=
  ((backtick :: tag) ++ body ++ PyStr.chars fence)%list.

(** ** Values produced by [json.loads] *)

Inductive json : Type :=
| JNull
| JBool (b : bool)
| JInt (z : Z)
| JFloat (f : float)
| JStr (s : string)
| JArr (items : list json)
| JObj (fields : list (string * json)).

(** A raised Python exception: its class and [str(e)].  The values of
    this type stand for exceptions that derive from [Exception], the
    ones an [except Exception] clause catches.  [SystemExit],
    [KeyboardInterrupt] and [GeneratorExit], which derive from
    [BaseException] alone and end the worker rather than the request,
    are not represented: an invocation that one of them interrupts is
    outside the model. *)
Record exn : Type := Raise { exn_class : string; exn_str : string }.

Definition result (A : Type) : Type := (exn + A)%type.

Module Py.

(** [bool(v)] *)
Definition truthy (v : json) : bool :=
  match v with
  | JNull => false
  | JBool b => b
  | JInt z => negb (Z.eqb z 0)
  | JFloat f => negb (PrimFloat.eqb f PrimFloat.zero)
  | JStr s => negb (String.eqb s "")
  | JArr items => match items with [] => false | _ => true end
  | JObj fields => match fields with [] => false | _ => true end
  end.

(** [type(v).__name__] *)
Definition type_name (v : json) : string :=
  match v with
  | JNull => "NoneType"
  | JBool _ => "bool"
  | JInt _ => "int"
  | JFloat _ => "float"
  | JStr _ => "str"
  | JArr _ => "list"
  | JObj _ => "dict"
  end.

Definition TypeError (msg : string) : exn := Raise "TypeError" msg.
Definition AttributeError (msg : string) : exn := Raise "AttributeError" msg.
Definition ValueError (msg : string) : exn := Raise "ValueError" msg.
Definition Exception (msg : string) : exn := Raise "Exception" msg.
Definition HTTPError (msg : string) : exn := Raise "HTTPError" msg.

(** The classes below [ValueError] that decoding a document can raise:
    [json.JSONDecodeError] and the [UnicodeError] family. *)
Definition value_errors : list string :=
  ["ValueError"; "JSONDecodeError"; "UnicodeError"; "UnicodeDecodeError";
   "UnicodeEncodeError"; "UnicodeTranslateError"].

(** [isinstance(e, ValueError)], by the class name. *)
Definition is_value_error (e : exn) : bool :=
  existsb (String.eqb (exn_class e)) value_errors.

Definition hex_digit (n : nat) : ascii :=
  ascii_of_nat (if Nat.ltb n 10 then 48 + n else 87 + n).

(** [str.isprintable] on one character, for code points below 256. *)
Definition is_printable (c : ascii) : bool :=
  let n := nat_of_ascii c in
  (Nat.leb 32 n && Nat.ltb n 127) || (Nat.ltb 160 n && negb (Nat.eqb n 173)).

(** One character of [repr(s)] inside the quotes [q]. *)
Definition repr_char (q c : ascii) : string :=
  let n := nat_of_ascii c in
  let one (a : ascii) := String a EmptyString in
  let escaped (a : ascii) := String "\"%char (one a) in
  if Ascii.eqb c q || Ascii.eqb c "\"%char then escaped c
  else if Nat.eqb n 9 then escaped "t"%char
  else if Nat.eqb n 10 then escaped "n"%char
  else if Nat.eqb n 13 then escaped "r"%char
  else if is_printable c then one c
  else String "\"%char
         (String "x"%char
            (String (hex_digit (n / 16)) (one (hex_digit (n mod 16))))).

Definition has_char (c : ascii) (s : string) : bool :=
  existsb (Ascii.eqb c) (list_ascii_of_string s).

(** [repr(s)] for a str: single quotes, unless the text holds a single
    quote and no double quote. *)
Definition repr (s : string) : string :=
  let single := "'"%char in
  let double := ascii_of_nat 34 in
  let q := if has_char single s && negb (has_char double s)
           then double else single in
  String q (String.concat "" (map (repr_char q) (list_ascii_of_string s))
            ++ String q EmptyString).

(** [KeyError(k)]: its [str] is the [repr] of the key. *)
Definition KeyError (k : string) : exn := Raise "KeyError" (repr k).

(** Lookup in a [dict]; the pairs are kept in insertion order and a
    key occurs once. *)
Fixpoint lookup (k : string) (fields : list (string * json)) : option json :=
  match fields with
  | [] => None
  | (k', v) :: rest => if String.eqb k k' then Some v else lookup k rest
  end.

(** [len(v)] *)
Definition len (v : json) : result Z :=
  match v with
  | JStr s => inr (Z.of_nat (String.length s))
  | JArr items => inr (Z.of_nat (List.length items))
  | JObj fields => inr (Z.of_nat (List.length fields))
  | _ => inl (TypeError ("object of type '" ++ type_name v ++ "' has no len()"))
  end.

Definition is_str (k : string) (v : json) : bool :=
  match v with JStr s => String.eqb k s | _ => false end.

(** [k in v] for a string [k]: key membership in a dict, element
    membership in a list, substring test in a str; any other value is
    not iterable. *)
Definition contains (k : string) (v : json) : result bool :=
  match v with
  | JObj fields => inr (match lookup k fields with Some _ => true | None => false end)
  | JArr items => inr (existsb (is_str k) items)
  | JStr s => inr (match String.index 0 k s with Some _ => true | None => false end)
  | _ => inl (TypeError ("argument of type '" ++ type_name v ++ "' is not iterable"))
  end.

(** [v[k]] for a string [k]. *)
Definition getitem (v : json) (k : string) : result json :=
  match v with
  | JObj fields =>
      match lookup k fields with
      | Some x => inr x
      | None => inl (KeyError k)
      end
  | JArr _ => inl (TypeError "list indices must be integers or slices, not str")
  | JStr _ => inl (TypeError "string indices must be integers, not 'str'")
  | _ => inl (TypeError ("'" ++ type_name v ++ "' object is not subscriptable"))
  end.

(** [v.get(k, default)]: only a dict has the method. *)
Definition get (v : json) (k : string) (default : json) : result json :=
  match v with
  | JObj fields =>
      inr (match lookup k fields with Some x => x | None => default end)
  | _ => inl (AttributeError ("'" ++ type_name v ++ "' object has no attribute 'get'"))
  end.

(** [str(n)] for an int. *)
Definition str_of_int (z : Z) : string := NilZero.string_of_int (Z.to_int z).

End Py.

(** ** The outside of the module *)

(** What [requests.get] hands back. *)
Record http_response : Type := HttpResponse {
  status_code : Z;
  reason : string;
  url : string;
  content : list byte
}.

(** [Response.raise_for_status] of the requests library, "Raise an
    HTTPError for bad responses (4xx or 5xx)" (main.py:310). *)
Definition raise_for_status (r : http_response) : result unit :=
  let describe kind :=
    Py.str_of_int (status_code r) ++ kind ++ reason r ++ " for url: " ++ url r in
  if (400 <=? status_code r)%Z && (status_code r <? 500)%Z
  then inl (Py.HTTPError (describe " Client Error: "))
  else if (500 <=? status_code r)%Z && (status_code r <? 600)%Z
  then inl (Py.HTTPError (describe " Server Error: "))
  else inr tt.

(** The OCR reply: [response.error.message] and
    [response.full_text_annotation], [None] when the annotation is
    falsy and [Some text] when it is set. *)
Record vision_response : Type := VisionResponse {
  error_message : string;
  full_text_annotation : option string
}.

(** The generative model's reply; reading [response.text] can raise. *)
Record gen_response : Type := GenResponse { text : result string }.

(** The inbound request: whether its mimetype is JSON, and its body. *)
Record request : Type := Request { is_json : bool; get_data : string }.

(** One call across the module boundary, with what it returned. *)
Inductive event : Type :=
| EvFetch (target : json) (timeout : Z) (r : result http_response)
| EvPdfReader (pdf : list byte) (r : result nat)
| EvOcr (pdf : list byte) (r : result vision_response)
| EvGenerate (prompt : string) (r : result gen_response)
| EvInsert (table : string) (record : json) (r : result json).

(** [json.loads] and [json.dumps] (with its [indent] argument) of the
    standard library.  The one fact about them the code relies on is
    that the empty document is rejected, with a [JSONDecodeError],
    which is a [ValueError]. *)
Class JsonLib : Type := {
  json_loads : string -> result json;
  json_dumps : option nat -> json -> string;
  json_loads_empty : exists e, json_loads "" = inl e;
  json_loads_empty_class :
    forall e, json_loads "" = inl e -> Py.is_value_error e = true
}.

(** The f-string prompt templates (main.py:137-175, 200-224, 249-266):
    fixed instruction text around the interpolated arguments. *)
Class Prompts : Type := {
  parse_prompt : string -> string;
  detect_prompt : string -> string;
  letter_prompt : string -> string -> string
}.

(** The remote services and libraries, acting on a world [W].  A call
    returns a value or raises an exception deriving from [Exception]. *)
Class Collaborators (W : Type) : Type := {
  (** [requests.get(url, timeout=t)] *)
  requests_get : json -> Z -> W -> result http_response * W;
  (** [len(PyPDF2.PdfReader(io.BytesIO(content)).pages)] *)
  pdf_reader_pages : list byte -> result nat;
  (** [vision_client.document_text_detection(image=Image(content))] *)
  document_text_detection : list byte -> W -> result vision_response * W;
  (** [genai.GenerativeModel("gemini-pro").generate_content(prompt)] *)
  generate_content : string -> W -> result gen_response * W;
  (** [supabase.table(name).insert(record).execute().data] *)
  table_insert : string -> json -> W -> result json * W;
  (** [datetime.now().isoformat()] *)
  now_isoformat : W -> string * W
}.

(** ** The program *)

Section Pipeline.

Context {W : Type} {J : JsonLib} {P : Prompts} {C : Collaborators W}.

(** The world together with the calls made so far, oldest first. *)
Definition state : Type := (W * list event)%type.

(** Computations that may raise and that talk to the collaborators. *)
Definition M (A : Type) : Type := state -> result A * state.

Definition ret {A : Type} (a : A) : M A := fun s => (inr a, s).

Definition raise {A : Type} (e : exn) : M A := fun s => (inl e, s).

Definition bind {A B : Type} (m : M A) (k : A -> M B) : M B :=
  fun s =>
    match m s with
    | (inr a, s') => k a s'
    | (inl e, s') => (inl e, s')
    end.

Definition lift {A : Type} (r : result A) : M A := fun s => (r, s).

(** [try: body except Exception as e: handler(e)] (main.py:306, 366).
    Every [exn] derives from [Exception], so the handler receives
    whatever the body raises; the exits that [except Exception] lets
    through are not values of [exn]. *)
Definition try_except {A : Type} (body : M A) (handler : exn -> M A) : M A :=
  fun s =>
    match body s with
    | (inl e, s') => handler e s'
    | (inr a, s') => (inr a, s')
    end.

(** A call across the boundary: run it on the world, log it. *)
Definition call {A : Type} (op : W -> result A * W) (ev : result A -> event)
  : M A :=
  fun s =>
    let (r, w') := op (fst s) in
    (r, (w', (snd s ++ [ev r])%list)).

Notation "x <- c1 ;; c2" := (bind c1 (fun x => c2))
  (at level 100, c1 at next level, right associativity).

(** Reading the clock is not logged as a collaborator call. *)
Definition now : M string :=
  fun s => let (t, w') := now_isoformat (fst s) in (inr t, (w', snd s)).

(** main.py:100-130.  The [except] clause logs and re-raises, so it
    does not change what propagates. *)
Definition extract_text_from_pdf_with_vision_ai (pdf_content : list byte)
  : M string :=
  pages <- call (fun w => (pdf_reader_pages pdf_content, w))
                (EvPdfReader pdf_content) ;;
  if Nat.eqb pages 0 then raise (Py.ValueError "PDF has no pages")
  else
    response <- call (document_text_detection pdf_content)
                     (EvOcr pdf_content) ;;
    if negb (String.eqb (error_message response) "")
    then raise (Py.Exception ("Vision AI error: " ++ error_message response))
    else
      match full_text_annotation response with
      | Some annotation_text => ret annotation_text
      | None => ret ""
      end.

(** main.py:132-191.  The [except] clause formats a log line that reads
    [response.text] again when [response] is bound; that property read
    raises only what line 180 already raised, so the exception that
    propagates is the one of the [try] block. *)
Definition parse_credit_report_with_gemini (credit_report_text : string)
  : M json :=
  response <- call (generate_content (parse_prompt credit_report_text))
                   (EvGenerate (parse_prompt credit_report_text)) ;;
  response_text <- lift (text response) ;;
  lift (json_loads (strip_code_fence response_text)).

(** main.py:193-239.  The success log line interpolates
    [len(violations)], which raises for a value without a length. *)
Definition detect_violations_with_gemini (parsed_data : json) : M json :=
  let data_str := json_dumps (Some 2) parsed_data in
  response <- call (generate_content (detect_prompt data_str))
                   (EvGenerate (detect_prompt data_str)) ;;
  response_text <- lift (text response) ;;
  violations <- lift (json_loads (strip_code_fence response_text)) ;;
  _ <- lift (Py.len violations) ;;
  ret violations.

(** main.py:241-273 *)
Definition generate_dispute_letter_with_gemini (personal_info violations : json)
  : M string :=
  let violations_str := json_dumps (Some 2) violations in
  let personal_info_str := json_dumps (Some 2) personal_info in
  response <- call (generate_content (letter_prompt personal_info_str violations_str))
                   (EvGenerate (letter_prompt personal_info_str violations_str)) ;;
  lift (text response).

(** [request.get_json(silent=True)] of Flask (main.py:288): [None]
    when the mimetype is not JSON; otherwise the body goes to
    [json.loads], and Werkzeug's [except ValueError] turns a
    [ValueError] of the parser into [None].  Any other exception of the
    parser, such as the [RecursionError] of a deeply nested body, is
    not silenced and is raised to the caller. *)
Definition get_json (req : request) : result json :=
  if is_json req
  then match json_loads (get_data req) with
       | inr v => inr v
       | inl e => if Py.is_value_error e then inr JNull else inl e
       end
  else inr JNull.

(** What [request_json] is bound to once line 288 has returned ([None]
    standing in when it raised instead). *)
Definition get_json_silent (req : request) : json :=
  match get_json req with
  | inr v => v
  | inl _ => JNull
  end.

(** main.py:292-298, once per field:
<<
    x = None
    if request_json and k in request_json:
        x = request_json[k]
>>
*)
Definition read_field (request_json : json) (k : string) : result json :=
  if Py.truthy request_json
  then
    match Py.contains k request_json with
    | inl e => inl e
    | inr true => Py.getitem request_json k
    | inr false => inr JNull
    end
  else inr JNull.

Definition error_body (message : string) : string :=
  json_dumps None (JObj [("status", JStr "error"); ("message", JStr message)]).

Definition analysis_record
  (user_id pdf_url : json) (extracted_text : string)
  (parsed_credit_report detected_violations : json)
  (dispute_letter processed_at : string) : json :=
  JObj [("user_id", user_id);
        ("pdf_url", pdf_url);
        ("extracted_text", JStr extracted_text);
        ("parsed_data", parsed_credit_report);
        ("violations", detected_violations);
        ("dispute_letter", JStr dispute_letter);
        ("processed_at", JStr processed_at)].

Definition summary (violations_found accounts_analyzed inquiries_found : Z)
  : json :=
  JObj [("violations_found", JInt violations_found);
        ("accounts_analyzed", JInt accounts_analyzed);
        ("inquiries_found", JInt inquiries_found)].

(** The ["summary"] entry of the success payload (main.py:359-363). *)
Definition summary_of (parsed_credit_report detected_violations : json)
  : result json :=
  match Py.len detected_violations with
  | inl e => inl e
  | inr violations_found =>
      match Py.get parsed_credit_report "accounts" (JArr []) with
      | inl e => inl e
      | inr accounts =>
          match Py.len accounts with
          | inl e => inl e
          | inr accounts_analyzed =>
              match Py.get parsed_credit_report "inquiries" (JArr []) with
              | inl e => inl e
              | inr inquiries =>
                  match Py.len inquiries with
                  | inl e => inl e
                  | inr inquiries_found =>
                      inr (summary violations_found accounts_analyzed
                                   inquiries_found)
                  end
              end
          end
      end
  end.

Definition success_body (data : json) (counts : json) : string :=
  json_dumps None
    (JObj [("status", JStr "success");
           ("message", JStr "Credit report processed successfully");
           ("data", data);
           ("summary", counts)]).

(** main.py:277-368.  The result is the pair (body, HTTP status). *)
Definition process_credit_report (req : request) : M (string * Z) :=
  request_json <- lift (get_json req) ;;
  pdf_url <- lift (read_field request_json "pdf_url") ;;
  user_id <- lift (read_field request_json "user_id") ;;
  if negb (Py.truthy pdf_url) || negb (Py.truthy user_id)
  then ret (error_body "Missing pdf_url or user_id", 400%Z)
  else
    try_except
      (pdf_response <- call (requests_get pdf_url 30) (EvFetch pdf_url 30) ;;
       _ <- lift (raise_for_status pdf_response) ;;
       let pdf_content := content pdf_response in
       extracted_text <- extract_text_from_pdf_with_vision_ai pdf_content ;;
       if String.eqb extracted_text ""
       then raise (Py.ValueError "Could not extract text from PDF.")
       else
         parsed_credit_report <- parse_credit_report_with_gemini extracted_text ;;
         if negb (Py.truthy parsed_credit_report)
         then raise (Py.ValueError "Could not parse credit report data.")
         else
           detected_violations <- detect_violations_with_gemini parsed_credit_report ;;
           personal_info <- lift (Py.get parsed_credit_report "personal_info" (JObj [])) ;;
           dispute_letter <- generate_dispute_letter_with_gemini
                               personal_info detected_violations ;;
           processed_at <- now ;;
           let supabase_data :=
             analysis_record user_id pdf_url extracted_text parsed_credit_report
                             detected_violations dispute_letter processed_at in
           data <- call (table_insert "credit_reports_analysis" supabase_data)
                        (EvInsert "credit_reports_analysis" supabase_data) ;;
           counts <- lift (summary_of parsed_credit_report detected_violations) ;;
           ret (success_body data counts, 200%Z))
      (fun e => ret (error_body (exn_str e), 500%Z)).

(** One invocation from a world [w], with an empty call log. *)
Definition run (req : request) (w : W) : result (string * Z) * state :=
  process_credit_report req (w, []).

Definition response_of (out : result (string * Z) * state) : result (string * Z) :=
  fst out.

Definition trace_of (out : result (string * Z) * state) : list event :=
  snd (snd out).

(** The HTTP status of the answer, if the handler returned one. *)
Definition status_of (out : result (string * Z) * state) : option Z :=
  match fst out with
  | inr (_, code) => Some code
  | inl _ => None
  end.

(** *** Stages of one invocation

    Each predicate says that the invocation got through one more step
    of the source, and names what that step returned and the state it
    left. *)

(** Validation passed with these two field values (main.py:295-300). *)
Definition accepted (req : request) (pdf_url user_id : json) : Prop :=
  read_field (get_json_silent req) "pdf_url" = inr pdf_url /\
  read_field (get_json_silent req) "user_id" = inr user_id /\
  Py.truthy pdf_url = true /\ Py.truthy user_id = true.

(** Step 1 returned a response that [raise_for_status] lets through,
    leaving the world [w1]. *)
Definition fetched (req : request) (w : W) (pdf_url user_id : json)
  (pdf_response : http_response) (w1 : W) : Prop :=
  accepted req pdf_url user_id /\
  requests_get pdf_url 30 w = (inr pdf_response, w1) /\
  raise_for_status pdf_response = inr tt.

(** Step 2 returned non-empty text. *)
Definition extracted (req : request) (w : W) (pdf_url user_id : json)
  (extracted_text : string) (s2 : state) : Prop :=
  exists pdf_response w1,
    fetched req w pdf_url user_id pdf_response w1 /\
    extract_text_from_pdf_with_vision_ai (content pdf_response)
      (w1, [EvFetch pdf_url 30 (inr pdf_response)])
      = (inr extracted_text, s2) /\
    extracted_text <> "".

(** Step 3 returned a truthy value. *)
Definition structured (req : request) (w : W) (pdf_url user_id : json)
  (extracted_text : string) (parsed_credit_report : json) (s3 : state) : Prop :=
  exists s2,
    extracted req w pdf_url user_id extracted_text s2 /\
    parse_credit_report_with_gemini extracted_text s2
      = (inr parsed_credit_report, s3) /\
    Py.truthy parsed_credit_report = true.

(** Step 4 returned. *)
Definition detected (req : request) (w : W) (pdf_url user_id : json)
  (extracted_text : string) (parsed_credit_report detected_violations : json)
  (s4 : state) : Prop :=
  exists s3,
    structured req w pdf_url user_id extracted_text parsed_credit_report s3 /\
    detect_violations_with_gemini parsed_credit_report s3
      = (inr detected_violations, s4).

(** Step 5 returned. *)
Definition drafted (req : request) (w : W) (pdf_url user_id : json)
  (extracted_text : string) (parsed_credit_report detected_violations : json)
  (dispute_letter : string) (s5 : state) : Prop :=
  exists s4 personal_info,
    detected req w pdf_url user_id extracted_text parsed_credit_report
             detected_violations s4 /\
    Py.get parsed_credit_report "personal_info" (JObj []) = inr personal_info /\
    generate_dispute_letter_with_gemini personal_info detected_violations s4
      = (inr dispute_letter, s5).

(** What the handler answers once the write of step 6 has returned [r]
    (main.py:352-368). *)
Definition answer_after_insert (r : result json)
  (parsed_credit_report detected_violations : json) : string * Z :=
  match r with
  | inl e => (error_body (exn_str e), 500%Z)
  | inr data =>
      match summary_of parsed_credit_report detected_violations with
      | inl e => (error_body (exn_str e), 500%Z)
      | inr counts => (success_body data counts, 200%Z)
      end
  end.

Definition is_generate (ev : event) : bool :=
  match ev with EvGenerate _ _ => true | _ => false end.

Definition is_insert (ev : event) : bool :=
  match ev with EvInsert _ _ _ => true | _ => false end.

(** No event of the kind [p] in a trace. *)
Definition quiet (p : event -> bool) (tr : list event) : Prop :=
  Forall (fun ev => p ev = false) tr.

(** The invocation never reached the datastore and did not answer 200. *)
Definition aborted (out : result (string * Z) * state) : Prop :=
  quiet is_insert (snd (snd out)) /\
  forall body, fst out <> inr (body, 200%Z).

(** The fetch did not deliver a document: [requests.get] raised
    (timeout, connection failure, ...) or the status is one that
    [raise_for_status] turns into an [HTTPError]. *)
Definition fetch_failed (r : result http_response) : Prop :=
  match r with
  | inl _ => True
  | inr pdf_response =>
      (400 <= status_code pdf_response < 600)%Z
  end.

(** The count the summary reports for a list-valued entry of the
    structured report: zero when the entry is absent, the number of
    items of a list, and Python's [len] for anything else. *)
Definition counted (entry : option json) (n : Z) : Prop :=
  match entry with
  | None => n = 0%Z
  | Some (JArr items) => n = Z.of_nat (List.length items)
  | Some v => Py.len v = inr n
  end.

(** *** How an invocation can end

    One constructor per place where [process_credit_report] returns or
    lets an exception through, with the state it leaves. *)

Inductive ends (req : request) (w : W)
  : result (string * Z) * state -> Prop :=
| Ends_body_raised (e : exn) :
    get_json req = inl e ->
    ends req w (inl e, (w, []))
| Ends_escaped (k : string) (e : exn) :
    (k = "pdf_url" /\ read_field (get_json_silent req) "pdf_url" = inl e) \/
    (k = "user_id" /\
     (exists pdf_url, read_field (get_json_silent req) "pdf_url" = inr pdf_url) /\
     read_field (get_json_silent req) "user_id" = inl e) ->
    ends req w (inl e, (w, []))
| Ends_rejected (pdf_url user_id : json) :
    get_json req = inr (get_json_silent req) ->
    read_field (get_json_silent req) "pdf_url" = inr pdf_url ->
    read_field (get_json_silent req) "user_id" = inr user_id ->
    Py.truthy pdf_url = false \/ Py.truthy user_id = false ->
    ends req w (inr (error_body "Missing pdf_url or user_id", 400%Z), (w, []))
| Ends_fetch_raised (pdf_url user_id : json) (e : exn) (w1 : W) :
    accepted req pdf_url user_id ->
    requests_get pdf_url 30 w = (inl e, w1) ->
    ends req w (inr (error_body (exn_str e), 500%Z),
                (w1, [EvFetch pdf_url 30 (inl e)]))
| Ends_bad_status (pdf_url user_id : json) (pdf_response : http_response)
    (e : exn) (w1 : W) :
    accepted req pdf_url user_id ->
    requests_get pdf_url 30 w = (inr pdf_response, w1) ->
    raise_for_status pdf_response = inl e ->
    ends req w (inr (error_body (exn_str e), 500%Z),
                (w1, [EvFetch pdf_url 30 (inr pdf_response)]))
| Ends_extract_raised (pdf_url user_id : json) (pdf_response : http_response)
    (w1 : W) (e : exn) (s2 : state) :
    fetched req w pdf_url user_id pdf_response w1 ->
    extract_text_from_pdf_with_vision_ai (content pdf_response)
      (w1, [EvFetch pdf_url 30 (inr pdf_response)]) = (inl e, s2) ->
    ends req w (inr (error_body (exn_str e), 500%Z), s2)
| Ends_no_text (pdf_url user_id : json) (pdf_response : http_response)
    (w1 : W) (s2 : state) :
    fetched req w pdf_url user_id pdf_response w1 ->
    extract_text_from_pdf_with_vision_ai (content pdf_response)
      (w1, [EvFetch pdf_url 30 (inr pdf_response)]) = (inr "", s2) ->
    ends req w (inr (error_body "Could not extract text from PDF.", 500%Z), s2)
| Ends_parse_raised (pdf_url user_id : json) (extracted_text : string)
    (s2 : state) (e : exn) (s3 : state) :
    extracted req w pdf_url user_id extracted_text s2 ->
    parse_credit_report_with_gemini extracted_text s2 = (inl e, s3) ->
    ends req w (inr (error_body (exn_str e), 500%Z), s3)
| Ends_falsy_report (pdf_url user_id : json) (extracted_text : string)
    (s2 : state) (v : json) (s3 : state) :
    extracted req w pdf_url user_id extracted_text s2 ->
    parse_credit_report_with_gemini extracted_text s2 = (inr v, s3) ->
    Py.truthy v = false ->
    ends req w (inr (error_body "Could not parse credit report data.", 500%Z), s3)
| Ends_detect_raised (pdf_url user_id : json) (extracted_text : string)
    (parsed_credit_report : json) (s3 : state) (e : exn) (s4 : state) :
    structured req w pdf_url user_id extracted_text parsed_credit_report s3 ->
    detect_violations_with_gemini parsed_credit_report s3 = (inl e, s4) ->
    ends req w (inr (error_body (exn_str e), 500%Z), s4)
| Ends_info_raised (pdf_url user_id : json) (extracted_text : string)
    (parsed_credit_report detected_violations : json) (s4 : state) (e : exn) :
    detected req w pdf_url user_id extracted_text parsed_credit_report
             detected_violations s4 ->
    Py.get parsed_credit_report "personal_info" (JObj []) = inl e ->
    ends req w (inr (error_body (exn_str e), 500%Z), s4)
| Ends_draft_raised (pdf_url user_id : json) (extracted_text : string)
    (parsed_credit_report detected_violations : json) (s4 : state)
    (personal_info : json) (e : exn) (s5 : state) :
    detected req w pdf_url user_id extracted_text parsed_credit_report
             detected_violations s4 ->
    Py.get parsed_credit_report "personal_info" (JObj []) = inr personal_info ->
    generate_dispute_letter_with_gemini personal_info detected_violations s4
      = (inl e, s5) ->
    ends req w (inr (error_body (exn_str e), 500%Z), s5)
| Ends_written (pdf_url user_id : json) (extracted_text : string)
    (parsed_credit_report detected_violations : json) (dispute_letter : string)
    (s5 : state) :
    drafted req w pdf_url user_id extracted_text parsed_credit_report
            detected_violations dispute_letter s5 ->
    let stamp := now_isoformat (fst s5) in
    let record := analysis_record user_id pdf_url extracted_text
                    parsed_credit_report detected_violations dispute_letter
                    (fst stamp) in
    let written := table_insert "credit_reports_analysis" record (snd stamp) in
    ends req w
      (inr (answer_after_insert (fst written) parsed_credit_report
                                detected_violations),
       (snd written,
        (snd s5 ++ [EvInsert "credit_reports_analysis" record (fst written)])%list)).

(** The kind of a call, and the order in which the source makes them. *)
Inductive kind : Type := KFetch | KPdfReader | KOcr | KGenerate | KInsert.

Definition kind_of (ev : event) : kind :=
  match ev with
  | EvFetch _ _ _ => KFetch
  | EvPdfReader _ _ => KPdfReader
  | EvOcr _ _ => KOcr
  | EvGenerate _ _ => KGenerate
  | EvInsert _ _ _ => KInsert
  end.

Definition pipeline_order : list kind :=
  [KFetch; KPdfReader; KOcr; KGenerate; KGenerate; KGenerate; KInsert].

(** The exception a call ended with, if it raised. *)
Definition raised (ev : event) : option exn :=
  match ev with
  | EvFetch _ _ (inl e) | EvPdfReader _ (inl e) | EvOcr _ (inl e)
  | EvGenerate _ (inl e) | EvInsert _ _ (inl e) => Some e
  | _ => None
  end.

(** Values [len] accepts. *)
Definition sized (v : json) : bool :=
  match v with
  | JStr _ | JArr _ | JObj _ => true
  | _ => false
  end.

(** A trace that starts with the fetch of [pdf_url] (30 s timeout),
    followed by calls of the kinds [ks]. *)
Definition begins_with_fetch (pdf_url : json) (ks : list kind)
  (tr : list event) : Prop :=
  exists r rest, tr = EvFetch pdf_url 30 r :: rest /\ map kind_of rest = ks.

End Pipeline.

(** ** Test doubles

    Canned collaborators in the manner of mocks, used to run the
    program on concrete requests. *)

Module Sample.

Definition dq : string := String (ascii_of_nat 34) EmptyString.

(** A compact serialiser for the sample values below (no floats, no
    characters that need escaping), with the default separators of
    [json.dumps]. *)
Fixpoint dumps (v : json) : string :=
  match v with
  | JNull => "null"
  | JBool true => "true"
  | JBool false => "false"
  | JInt z => Py.str_of_int z
  | JFloat _ => "NaN"
  | JStr s => dq ++ s ++ dq
  | JArr items =>
      "[" ++ (fix go (l : list json) : string :=
                match l with
                | [] => ""
                | [x] => dumps x
                | x :: rest => dumps x ++ ", " ++ go rest
                end) items ++ "]"
  | JObj fields =>
      "{" ++ (fix go (l : list (string * json)) : string :=
                match l with
                | [] => ""
                | [(k, x)] => dq ++ k ++ dq ++ ": " ++ dumps x
                | (k, x) :: rest => dq ++ k ++ dq ++ ": " ++ dumps x ++ ", " ++ go rest
                end) fields ++ "}"
  end.

(** The payload of [test_local.py]. *)
Definition test_payload : json :=
  JObj [("pdf_url", JStr "https://example.com/test-credit-report.pdf");
        ("user_id", JStr "test-user-123")].

Definition payload_without_user : json :=
  JObj [("pdf_url", JStr "https://example.com/test-credit-report.pdf")].

Definition report : json :=
  JObj [("personal_info", JObj [("name", JStr "JOHN DOE")]);
        ("accounts", JArr [JObj [("creditor_name", JStr "CHASE BANK")]]);
        ("inquiries", JArr [])].

Definition one_violation : json :=
  JArr [JObj [("title", JStr "Obsolete Charge-Off"); ("severity", JStr "HIGH")]].

Definition documents : list json :=
  [test_payload; payload_without_user; report; one_violation;
   JArr []; JObj []; JInt 5].

Definition JSONDecodeError : exn :=
  Raise "JSONDecodeError" "Expecting value: line 1 column 1 (char 0)".

(** A parser that knows exactly the sample documents. *)
Definition loads (s : string) : result json :=
  match find (fun v => String.eqb (dumps v) s) documents with
  | Some v => inr v
  | None => inl JSONDecodeError
  end.

#[export] Instance sample_json : JsonLib :=
  {| json_loads := loads;
     json_dumps := fun _ v => dumps v;
     json_loads_empty := ex_intro _ JSONDecodeError eq_refl;
     json_loads_empty_class := fun e H =>
       eq_sym (f_equal (fun r => match r with
                                 | inl e' => Py.is_value_error e'
                                 | inr _ => true
                                 end) H) |}.

#[export] Instance sample_prompts : Prompts :=
  {| parse_prompt := fun t => "Credit Report Text:" ++ nl ++ t;
     detect_prompt := fun d => "Credit Report Data:" ++ nl ++ d;
     letter_prompt := fun p v =>
       "Personal Information:" ++ nl ++ p ++ nl ++ "Violations to Dispute:" ++ nl ++ v |}.

(** What each collaborator answers; the generative model answers its
    successive calls from a list. *)
Record script : Type := Script {
  fetch_reply : result http_response;
  pages_reply : result nat;
  ocr_reply : result vision_response;
  model_replies : list (result gen_response);
  insert_reply : json -> result json;
  clock : string
}.

Definition next_reply (w : list (result gen_response))
  : result gen_response * list (result gen_response) :=
  match w with
  | r :: w' => (r, w')
  | [] => (inl (Raise "StopIteration" ""), [])
  end.

Definition scripted (sc : script) : Collaborators (list (result gen_response)) :=
  {| requests_get := fun _ _ w => (fetch_reply sc, w);
     pdf_reader_pages := fun _ => pages_reply sc;
     document_text_detection := fun _ w => (ocr_reply sc, w);
     generate_content := fun _ w => next_reply w;
     table_insert := fun _ record w => (insert_reply sc record, w);
     now_isoformat := fun w => (clock sc, w) |}.

Definition says (t : string) : result gen_response := inr (GenResponse (inr t)).

Definition pdf_bytes : list byte := [x25; x50; x44; x46].

Definition ok_fetch (status : Z) (why : string) : result http_response :=
  inr (HttpResponse status why "https://example.com/test-credit-report.pdf" pdf_bytes).

Definition ocr_text : string := "JOHN DOE ... CHASE BANK ... Current ...".

Definition stored (record : json) : result json := inr (JArr [record]).

(** The end-to-end scenario: every collaborator succeeds. *)
Definition happy : script :=
  Script (ok_fetch 200 "OK") (inr 1%nat)
         (inr (VisionResponse "" (Some ocr_text)))
         [says (dumps report); says (dumps one_violation); says "Dear Bureau..."]
         stored "2024-01-01T00:00:00".

Definition with_fetch (r : result http_response) (sc : script) : script :=
  Script r (pages_reply sc) (ocr_reply sc) (model_replies sc)
         (insert_reply sc) (clock sc).

Definition with_ocr (r : result vision_response) (sc : script) : script :=
  Script (fetch_reply sc) (pages_reply sc) r (model_replies sc)
         (insert_reply sc) (clock sc).

Definition with_model (rs : list (result gen_response)) (sc : script) : script :=
  Script (fetch_reply sc) (pages_reply sc) (ocr_reply sc) rs
         (insert_reply sc) (clock sc).

Definition with_insert (f : json -> result json) (sc : script) : script :=
  Script (fetch_reply sc) (pages_reply sc) (ocr_reply sc) (model_replies sc)
         f (clock sc).

Definition post (body : json) : request := Request true (dumps body).

(** Run [process_credit_report] against a script. *)
Definition serve (sc : script) (req : request) :=
  @run _ sample_json sample_prompts (scripted sc) req (model_replies sc).

(** Variations of the scenario. *)
Definition multiple_choices : script :=
  with_fetch (ok_fetch 300 "Multiple Choices") happy.

Definition not_found : script := with_fetch (ok_fetch 404 "Not Found") happy.

Definition blank_scan : script := with_ocr (inr (VisionResponse "" None)) happy.

Definition empty_object_reply : script := with_model [says "{}"] happy.

Definition no_violations : script :=
  with_model [says (dumps report); says "[]"; says "Dear Bureau..."] happy.

Definition quota_exhausted : exn := Raise "ResourceExhausted" "429 Quota exceeded".

Definition letter_refused : script :=
  with_model [says (dumps report); says (dumps one_violation); inl quota_exhausted]
             happy.

Definition empty_letter : script :=
  with_model [says (dumps report); says (dumps one_violation); says ""] happy.

Definition write_refused : exn := Raise "APIError" "permission denied for table".


Definition url : json := JStr "https://example.com/test-credit-report.pdf".
Definition user : json := JStr "test-user-123".
Definition document : http_response :=
  HttpResponse 200 "OK" "https://example.com/test-credit-report.pdf" pdf_bytes.
Definition good_request : request := post test_payload.

(** The states a scripted run goes through. *)
Definition after_fetch (sc : script) : list (result gen_response) * list event :=
  (model_replies sc, [EvFetch url 30 (fetch_reply sc)]).

Definition after_extract (sc : script) :=
  snd (@extract_text_from_pdf_with_vision_ai _ (scripted sc) pdf_bytes (after_fetch sc)).

Definition after_parse (sc : script) :=
  snd (@parse_credit_report_with_gemini _ sample_json sample_prompts (scripted sc)
         ocr_text (after_extract sc)).

Definition after_detect (sc : script) :=
  snd (@detect_violations_with_gemini _ sample_json sample_prompts (scripted sc)
         report (after_parse sc)).

Definition personal_info : json := JObj [("name", JStr "JOHN DOE")].

Definition after_draft (sc : script) (violations : json) :=
  snd (@generate_dispute_letter_with_gemini _ sample_json sample_prompts (scripted sc)
         personal_info violations (after_detect sc)).

(** Further variations. *)

(** The structuring reply is the bare number 5. *)
Definition number_report : script := with_model [says "5"; says "[]"] happy.

(** The detection reply is the bare number 5. *)
Definition number_violations : script :=
  with_model [says (dumps report); says "5"] happy.

(** The PDF reader finds no page. *)
Definition no_pages : script :=
  Script (fetch_reply happy) (inr 0%nat) (ocr_reply happy) (model_replies happy)
         (insert_reply happy) (clock happy).

(** A report whose [accounts] entry is a number. *)
Definition odd_report : json := JObj [("accounts", JInt 3)].

Definition loads_more (s : string) : result json :=
  if String.eqb s (dumps odd_report) then inr odd_report else loads s.

Definition more_json : JsonLib :=
  {| json_loads := loads_more;
     json_dumps := fun _ v => dumps v;
     json_loads_empty := ex_intro _ JSONDecodeError eq_refl;
     json_loads_empty_class := fun e H =>
       eq_sym (f_equal (fun r => match r with
                                 | inl e' => Py.is_value_error e'
                                 | inr _ => true
                                 end) H) |}.

Definition odd_accounts : script :=
  with_model [says (dumps odd_report); says "[]"; says "Dear Bureau..."] happy.

Definition serve_more (sc : script) (req : request) :=
  @run _ more_json sample_prompts (scripted sc) req (model_replies sc).

(** The OCR reply carries both an error message and text. *)
Definition ocr_complains : script :=
  with_ocr (inr (VisionResponse "Bad image data." (Some ocr_text))) happy.

(** Detection finds nothing and the letter call then fails. *)
Definition no_violations_letter_refused : script :=
  with_model [says (dumps report); says "[]"; inl quota_exhausted] happy.

(** Detection finds nothing and the datastore then refuses the write. *)
Definition no_violations_datastore_down : script :=
  with_insert (fun _ => inl write_refused) no_violations.

(** A body of 100000 opening brackets.  It is not valid JSON, and
    [json.loads] gives up on it with a [RecursionError] before finding
    that out. *)
Definition deep_body : string :=
  string_of_list_ascii (repeat "["%char (100 * 1000)).

Definition RecursionError : exn :=
  Raise "RecursionError"
        "maximum recursion depth exceeded while decoding a JSON array from a unicode string".

Definition loads_deep (s : string) : result json :=
  if String.eqb s deep_body then inl RecursionError else loads s.

Definition deep_json : JsonLib :=
  {| json_loads := loads_deep;
     json_dumps := fun _ v => dumps v;
     json_loads_empty := ex_intro _ JSONDecodeError eq_refl;
     json_loads_empty_class := fun e H =>
       eq_sym (f_equal (fun r => match r with
                                 | inl e' => Py.is_value_error e'
                                 | inr _ => true
                                 end) H) |}.

Definition serve_deep (sc : script) (req : request) :=
  @run _ deep_json sample_prompts (scripted sc) req (model_replies sc).

End Sample.

(** ** The declared data model (main.py:33-56)

    The three enumerations; [X(v)] looks a member up by its value, in
    declaration order, and raises [ValueError] when there is none. *)

Module DataModel.

Inductive AccountStatus : Type :=
| CURRENT | THIRTY_DAYS_LATE | SIXTY_DAYS_LATE | NINETY_DAYS_LATE
| ONE_TWENTY_DAYS_LATE | CHARGE_OFF | COLLECTION | CLOSED | PAID.

Definition AccountStatus_value (m : AccountStatus) : string :=
  match m with
  | CURRENT => "current"
  | THIRTY_DAYS_LATE => "30_days_late"
  | SIXTY_DAYS_LATE => "60_days_late"
  | NINETY_DAYS_LATE => "90_days_late"
  | ONE_TWENTY_DAYS_LATE => "120_days_late"
  | CHARGE_OFF => "charge_off"
  | COLLECTION => "collection"
  | CLOSED => "closed"
  | PAID => "paid"
  end.

Definition AccountStatus_members : list AccountStatus :=
  [CURRENT; THIRTY_DAYS_LATE; SIXTY_DAYS_LATE; NINETY_DAYS_LATE;
   ONE_TWENTY_DAYS_LATE; CHARGE_OFF; COLLECTION; CLOSED; PAID].

Inductive ViolationType : Type :=
| FCRA_OBSOLETE_INFO | FCRA_ACCURACY | FCRA_INCOMPLETE_INFO
| METRO2_FORMAT_ERROR | DUPLICATE_ACCOUNT | INACCURATE_BALANCE.

Definition ViolationType_value (m : ViolationType) : string :=
  match m with
  | FCRA_OBSOLETE_INFO => "fcra_obsolete_info"
  | FCRA_ACCURACY => "fcra_accuracy"
  | FCRA_INCOMPLETE_INFO => "fcra_incomplete_info"
  | METRO2_FORMAT_ERROR => "metro2_format_error"
  | DUPLICATE_ACCOUNT => "duplicate_account"
  | INACCURATE_BALANCE => "inaccurate_balance"
  end.

Definition ViolationType_members : list ViolationType :=
  [FCRA_OBSOLETE_INFO; FCRA_ACCURACY; FCRA_INCOMPLETE_INFO;
   METRO2_FORMAT_ERROR; DUPLICATE_ACCOUNT; INACCURATE_BALANCE].

Inductive ViolationSeverity : Type := LOW | MEDIUM | HIGH | CRITICAL.

Definition ViolationSeverity_value (m : ViolationSeverity) : string :=
  match m with
  | LOW => "low"
  | MEDIUM => "medium"
  | HIGH => "high"
  | CRITICAL => "critical"
  end.

Definition ViolationSeverity_members : list ViolationSeverity :=
  [LOW; MEDIUM; HIGH; CRITICAL].

(** [Enum(v)] for an enumeration given by its members and their values. *)
Definition by_value {A : Type} (name : string) (members : list A)
  (value : A -> string) (v : string) : result A :=
  match find (fun m => String.eqb (value m) v) members with
  | Some m => inr m
  | None => inl (Py.ValueError (Py.repr v ++ " is not a valid " ++ name))
  end.

Definition AccountStatus_of (v : string) : result AccountStatus :=
  by_value "AccountStatus" AccountStatus_members AccountStatus_value v.

Definition ViolationType_of (v : string) : result ViolationType :=
  by_value "ViolationType" ViolationType_members ViolationType_value v.

Definition ViolationSeverity_of (v : string) : result ViolationSeverity :=
  by_value "ViolationSeverity" ViolationSeverity_members ViolationSeverity_value v.

End DataModel.

(** ** The local test script (test_local.py)

    The three checks that return a verdict.  Console output is a list
    of lines.  A line that opens with an emoji is that emoji, kept as a
    [mark], one space, and the text; a [Plain] line is its text alone. *)

Module TestLocal.

Inductive mark : Type :=
| Plain | Wrench | Link | Robot | Check | Cross | Warning.

Definition line : Type := (mark * string)%type.

(** ["=" * n] and ["*" * n] *)
Fixpoint repeat_char (c : ascii) (n : nat) : string :=
  match n with
  | O => EmptyString
  | S n' => String c (repeat_char c n')
  end.

(** [os.getenv]: the process environment. *)
Definition environ : Type := string -> option string.

(** [if value:] for what [os.getenv] returned. *)
Definition is_set (value : option string) : bool :=
  match value with
  | Some v => negb (String.eqb v "")
  | None => false
  end.

Definition required_vars : list string :=
  ["SUPABASE_URL"; "SUPABASE_KEY"; "GEMINI_API_KEY"].

Definition optional_vars : list string :=
  ["GOOGLE_APPLICATION_CREDENTIALS"].

(** The body of the first loop (test_local.py:92-98): the line printed
    for one required variable and whether it was found. *)
Definition report_required (env : environ) (var : string) : line * bool :=
  match env var with
  | Some value =>
      if negb (String.eqb value "")
      then ((Check, var ++ ": "
                    ++ repeat_char "*" (Nat.min (String.length value) 10)
                    ++ "..."), true)
      else ((Cross, var ++ ": Not set"), false)
  | None => ((Cross, var ++ ": Not set"), false)
  end.

(** The body of the second loop (test_local.py:100-105). *)
Definition report_optional (env : environ) (var : string) : line :=
  match env var with
  | Some value =>
      if negb (String.eqb value "")
      then (Check, var ++ ": " ++ value)
      else (Warning, " " ++ var ++ ": Not set (optional for local testing)")
  | None => (Warning, " " ++ var ++ ": Not set (optional for local testing)")
  end.

(** test_local.py:74-108; the result is the lines printed and the
    value returned. *)
Definition test_environment_setup (env : environ) : list line * bool :=
  let header := [(Wrench, "Testing Environment Setup");
                 (Plain, repeat_char "=" 30)] in
  let required :=
    fold_left
      (fun (acc : list line * bool) var =>
         let (printed, found) := report_required env var in
         ((fst acc ++ [printed])%list, if found then snd acc else false))
      required_vars ([], true) in
  let optional := map (report_optional env) optional_vars in
  ((header ++ fst required ++ optional ++ [(Plain, "")])%list, snd required).

(** The services the two connection checks talk to. *)
Class Services (W : Type) : Type := {
  (** [from supabase import create_client; create_client(url, key)] *)
  create_client : string -> string -> W -> result unit * W;
  (** [supabase.table(name).select("id").limit(1).execute()] *)
  select_one : string -> W -> result unit * W;
  (** [genai.configure(api_key=key)] and
      [GenerativeModel("gemini-pro").generate_content(prompt)] *)
  configured_generate : string -> string -> W -> result gen_response * W
}.

Inductive probe : Type :=
| Connected (supabase_url supabase_key : string) (r : result unit)
| Queried (table : string) (r : result unit)
| Asked (gemini_key prompt : string) (r : result gen_response).

Section Checks.

Context {W : Type} {S : Services W}.

Definition getenv_str (env : environ) (var : string) : string :=
  match env var with Some v => v | None => "" end.

(** test_local.py:110-136; the result is the lines printed, the
    verdict, the world and the calls made. *)
Definition test_supabase_connection (env : environ) (w : W)
  : list line * bool * W * list probe :=
  let header := [(Link, "Testing Supabase Connection");
                 (Plain, repeat_char "=" 30)] in
  if negb (is_set (env "SUPABASE_URL")) || negb (is_set (env "SUPABASE_KEY"))
  then ((header ++ [(Cross, "Supabase credentials not configured")])%list,
        false, w, [])
  else
    let supabase_url := getenv_str env "SUPABASE_URL" in
    let supabase_key := getenv_str env "SUPABASE_KEY" in
    let (c, w1) := create_client supabase_url supabase_key w in
    match c with
    | inl e =>
        ((header ++ [(Cross, ("Supabase connection failed: " ++ exn_str e)%string)])%list,
         false, w1, [Connected supabase_url supabase_key c])
    | inr _ =>
        let (q, w2) := select_one "credit_reports_analysis" w1 in
        match q with
        | inl e =>
            ((header ++ [(Cross, ("Supabase connection failed: " ++ exn_str e)%string)])%list,
             false, w2,
             [Connected supabase_url supabase_key c;
              Queried "credit_reports_analysis" q])
        | inr _ =>
            ((header ++ [(Check, "Supabase connection successful")])%list,
             true, w2,
             [Connected supabase_url supabase_key c;
              Queried "credit_reports_analysis" q])
        end
    end.

(** test_local.py:138-168 *)
Definition test_gemini_api (env : environ) (w : W)
  : list line * bool * W * list probe :=
  let header := [(Robot, "Testing Gemini API");
                 (Plain, repeat_char "=" 20)] in
  if negb (is_set (env "GEMINI_API_KEY"))
  then ((header ++ [(Cross, "Gemini API key not configured")])%list,
        false, w, [])
  else
    let gemini_key := getenv_str env "GEMINI_API_KEY" in
    let (r, w1) := configured_generate gemini_key "Hello, this is a test." w in
    let calls := [Asked gemini_key "Hello, this is a test." r] in
    match r with
    | inl e =>
        ((header ++ [(Cross, ("Gemini API connection failed: " ++ exn_str e)%string)])%list,
         false, w1, calls)
    | inr response =>
        match text response with
        | inl e =>
            ((header ++ [(Cross, ("Gemini API connection failed: " ++ exn_str e)%string)])%list,
             false, w1, calls)
        | inr reply =>
            if negb (String.eqb reply "")
            then ((header ++ [(Check, "Gemini API connection successful")])%list,
                  true, w1, calls)
            else ((header ++ [(Cross, "Gemini API returned empty response")])%list,
                  false, w1, calls)
        end
    end.

(** The value a check returns. *)
Definition verdict (out : list line * bool * W * list probe) : bool :=
  snd (fst (fst out)).

End Checks.

(** Canned services for running the checks. *)
Definition always_up : Services unit :=
  {| create_client := fun _ _ w => (inr tt, w);
     select_one := fun _ w => (inr tt, w);
     configured_generate := fun _ _ w => (inr (GenResponse (inr "Hello!")), w) |}.

Definition full_env : environ :=
  fun var =>
    if String.eqb var "SUPABASE_URL" then Some "https://project.supabase.co"
    else if String.eqb var "SUPABASE_KEY" then Some "service-role-key-0123456789"
    else if String.eqb var "GEMINI_API_KEY" then Some "AIza-key"
    else None.

Definition other_secrets : environ :=
  fun var =>
    if String.eqb var "SUPABASE_URL" then Some "https://another.supabase.co"
    else if String.eqb var "SUPABASE_KEY" then Some "a-different-long-secret"
    else if String.eqb var "GEMINI_API_KEY" then Some "BZjb-yek"
    else None.

Definition no_gemini_env : environ :=
  fun var => if String.eqb var "GEMINI_API_KEY" then None else full_env var.

End TestLocal.

(** * Properties *)

(** ** White space and fences *)

Module PyStrFacts.
Import PyStr.

Lemma chars_app (a b : string) : chars (a ++ b) = (chars a ++ chars b)%list.
Proof.
  unfold chars. induction a as [|c a IH]; simpl; [reflexivity|].
  now rewrite IH.
Qed.

Lemma chars_str (l : list ascii) : chars (str l) = l.
Proof. apply list_ascii_of_string_of_list_ascii. Qed.

Lemma str_chars (s : string) : str (chars s) = s.
Proof. apply string_of_list_ascii_of_string. Qed.

Lemma lstrip_app_space (ws l : list ascii) :
  all_space ws -> lstrip_chars (ws ++ l) = lstrip_chars l.
Proof.
  induction 1 as [|c ws Hc _ IH]; simpl; [reflexivity|].
  now rewrite Hc.
Qed.

Lemma lstrip_all_space (ws : list ascii) : all_space ws -> lstrip_chars ws = [].
Proof.
  intros H. rewrite <- (app_nil_r ws). now rewrite lstrip_app_space.
Qed.

Lemma all_space_rev (ws : list ascii) : all_space ws -> all_space (rev ws).
Proof. unfold all_space. apply Forall_rev. Qed.

Lemma rstrip_app_space (l ws : list ascii) :
  all_space ws -> rstrip_chars (l ++ ws) = rstrip_chars l.
Proof.
  intros H. unfold rstrip_chars.
  rewrite rev_app_distr, lstrip_app_space; auto using all_space_rev.
Qed.

(** A stripped-left string is empty or begins with a visible character. *)
Lemma lstrip_head (l : list ascii) :
  lstrip_chars l = [] \/
  exists c l', lstrip_chars l = c :: l' /\ is_space c = false.
Proof.
  induction l as [|c l IH]; simpl; [now left|].
  destruct (is_space c) eqn:Hc; [exact IH|].
  right. now exists c, l.
Qed.

Lemma lstrip_snoc_visible (l : list ascii) (c : ascii) :
  is_space c = false -> lstrip_chars (l ++ [c]) = (lstrip_chars l ++ [c])%list.
Proof.
  intros Hc. induction l as [|d l IH]; simpl.
  - now rewrite Hc.
  - destruct (is_space d); [exact IH | reflexivity].
Qed.

Lemma rstrip_cons_visible (c : ascii) (l : list ascii) :
  is_space c = false -> rstrip_chars (c :: l) = c :: rstrip_chars l.
Proof.
  intros Hc. unfold rstrip_chars. simpl.
  rewrite lstrip_snoc_visible by exact Hc.
  now rewrite rev_app_distr.
Qed.

Lemma rstrip_snoc_visible (l : list ascii) (c : ascii) :
  is_space c = false -> rstrip_chars (l ++ [c]) = (l ++ [c])%list.
Proof.
  intros Hc. unfold rstrip_chars.
  rewrite rev_app_distr. simpl. rewrite Hc. simpl.
  now rewrite rev_involutive.
Qed.

Lemma lstrip_idem (l : list ascii) : lstrip_chars (lstrip_chars l) = lstrip_chars l.
Proof.
  destruct (lstrip_head l) as [H | (c & l' & H & Hc)]; rewrite H; simpl;
    [reflexivity | now rewrite Hc].
Qed.

Lemma rstrip_idem (l : list ascii) : rstrip_chars (rstrip_chars l) = rstrip_chars l.
Proof.
  unfold rstrip_chars. now rewrite rev_involutive, lstrip_idem.
Qed.

Lemma strip_chars_idem (l : list ascii) :
  strip_chars (strip_chars l) = strip_chars l.
Proof.
  unfold strip_chars.
  destruct (lstrip_head l) as [H | (c & l' & H & Hc)]; rewrite H.
  - reflexivity.
  - rewrite rstrip_cons_visible by exact Hc. simpl. rewrite Hc.
    rewrite <- (rstrip_cons_visible c) by exact Hc.
    apply rstrip_idem.
Qed.

(** White space around a string does not survive [strip]. *)
Lemma strip_chars_padded (ws1 l ws2 : list ascii) :
  all_space ws1 -> all_space ws2 ->
  strip_chars (ws1 ++ l ++ ws2) = strip_chars l.
Proof.
  intros H1 H2. unfold strip_chars. rewrite lstrip_app_space by exact H1.
  clear H1 ws1. induction l as [|c l IH]; simpl.
  - now rewrite (lstrip_all_space ws2).
  - destruct (is_space c) eqn:Hc; [exact IH|].
    exact (rstrip_app_space (c :: l) ws2 H2).
Qed.

(** A string that begins and ends with a visible character is its own
    [strip]. *)
Lemma strip_chars_visible_ends (a b : ascii) (l : list ascii) :
  is_space a = false -> is_space b = false ->
  strip_chars (a :: l ++ [b]) = a :: l ++ [b].
Proof.
  intros Ha Hb. unfold strip_chars. simpl. rewrite Ha.
  exact (rstrip_snoc_visible (a :: l) b Hb).
Qed.

Lemma prefix_chars_app (p l : list ascii) : prefix_chars p (p ++ l) = true.
Proof.
  induction p as [|c p IH]; simpl; [reflexivity|].
  now rewrite Ascii.eqb_refl.
Qed.

Lemma prefix_chars_weaken (p q l : list ascii) :
  prefix_chars (p ++ q) l = true -> prefix_chars p l = true.
Proof.
  revert l. induction p as [|c p IH]; intros l; simpl; [reflexivity|].
  destruct l as [|d l]; [discriminate|].
  rewrite !andb_true_iff. intros [H1 H2]. split; [exact H1 | now apply IH].
Qed.

Lemma slice_chars_middle (p m q : list ascii) :
  slice_chars (List.length p) (List.length q) (p ++ m ++ q) = m.
Proof.
  unfold slice_chars.
  rewrite skipn_app, skipn_all, Nat.sub_diag. simpl.
  rewrite !length_app.
  replace (List.length p + (List.length m + List.length q) - List.length q - List.length p)%nat
    with (List.length m + 0)%nat by lia.
  rewrite firstn_app_2. simpl. now rewrite app_nil_r.
Qed.

Lemma strip_idem (s : string) : strip (strip s) = strip s.
Proof. unfold strip. now rewrite chars_str, strip_chars_idem. Qed.

End PyStrFacts.

Module FenceFacts.
Import PyStr PyStrFacts.

Lemma backtick_visible : is_space backtick = false.
Proof. reflexivity. Qed.

Lemma newline_space : all_space [newline].
Proof. repeat constructor. Qed.

Lemma delimited_strip (tag body : list ascii) :
  strip_chars (delimited tag body) = delimited tag body.
Proof.
  unfold delimited.
  change (chars fence) with ([backtick; backtick] ++ [backtick])%list.
  rewrite <- app_comm_cons, !app_assoc.
  apply strip_chars_visible_ends; apply backtick_visible.
Qed.

Lemma delimited_ends (tag body : list ascii) :
  prefix_chars (rev (chars fence)) (rev (delimited tag body)) = true.
Proof.
  unfold delimited. rewrite app_assoc, rev_app_distr. apply prefix_chars_app.
Qed.

Lemma delimited_slice (tag body : list ascii) :
  slice_chars (S (List.length tag)) 3 (delimited tag body) = body.
Proof. exact (slice_chars_middle (backtick :: tag) body (chars fence)). Qed.

Lemma wrap_json_chars (s : string) :
  chars (wrap_json s) =
  delimited (List.tl (chars fence_json_tag)) ([newline] ++ chars s ++ [newline]).
Proof.
  unfold wrap_json, delimited. rewrite !chars_app.
  change (chars nl) with [newline].
  change (backtick :: List.tl (chars fence_json_tag)) with (chars fence_json_tag).
  now rewrite <- !app_assoc.
Qed.

Lemma wrap_plain_chars (s : string) :
  chars (wrap_plain s) =
  delimited (List.tl (chars fence)) ([newline] ++ chars s ++ [newline]).
Proof.
  unfold wrap_plain, delimited. rewrite !chars_app.
  change (chars nl) with [newline].
  change (backtick :: List.tl (chars fence)) with (chars fence).
  now rewrite <- !app_assoc.
Qed.

(** Stripping a [```json] wrapper gives back the stripped payload. *)
Lemma strip_code_fence_wrap_json (s : string) :
  strip_code_fence (wrap_json s) = strip s.
Proof.
  unfold strip_code_fence, strip, startswith, endswith, slice.
  rewrite wrap_json_chars, delimited_strip, !chars_str, delimited_ends.
  change (prefix_chars (chars fence_json_tag) (delimited ?t ?b)) with true.
  simpl andb. cbv iota.
  rewrite (delimited_slice (List.tl (chars fence_json_tag))).
  now rewrite strip_chars_padded by apply newline_space.
Qed.

(** Stripping a plain [```] wrapper gives back the stripped payload. *)
Lemma strip_code_fence_wrap_plain (s : string) :
  strip_code_fence (wrap_plain s) = strip s.
Proof.
  unfold strip_code_fence, strip, startswith, endswith, slice.
  rewrite wrap_plain_chars, delimited_strip, !chars_str, delimited_ends.
  change (prefix_chars (chars fence_json_tag) (delimited ?t ?b)) with false.
  change (prefix_chars (chars fence) (delimited ?t ?b)) with true.
  simpl andb. cbv iota.
  rewrite (delimited_slice (List.tl (chars fence))).
  now rewrite strip_chars_padded by apply newline_space.
Qed.

(** The [```json] guard implies the plain one. *)
Lemma json_guard_is_fenced (j : string) :
  startswith fence_json_tag j = true -> startswith fence j = true.
Proof.
  unfold startswith.
  change (chars fence_json_tag) with (chars fence ++ chars "json")%list.
  apply prefix_chars_weaken.
Qed.

(** A reply that is not fence-shaped is only stripped of white space. *)
Lemma strip_code_fence_unfenced (s : string) :
  fenced s = false -> strip_code_fence s = strip s.
Proof.
  unfold fenced, strip_code_fence. cbv zeta. intros H.
  rewrite H.
  destruct (startswith fence_json_tag (strip s)) eqn:Hj; [|reflexivity].
  apply json_guard_is_fenced in Hj. rewrite Hj in H. simpl in H.
  now rewrite H.
Qed.

Lemma fenced_strip (s : string) : fenced (strip s) = fenced s.
Proof. unfold fenced. now rewrite strip_idem. Qed.

Lemma length_str (l : list ascii) : String.length (str l) = List.length l.
Proof. induction l as [|c l IH]; cbn; [reflexivity | now rewrite IH]. Qed.

Lemma length_chars (s : string) : List.length (chars s) = String.length s.
Proof.
  unfold chars. induction s as [|c s IH]; cbn; [reflexivity | now rewrite IH].
Qed.

Lemma lstrip_length (l : list ascii) :
  (List.length (lstrip_chars l) <= List.length l)%nat.
Proof.
  induction l as [|c l IH]; cbn; [auto|].
  destruct (is_space c); cbn; lia.
Qed.

Lemma strip_chars_length (l : list ascii) :
  (List.length (strip_chars l) <= List.length l)%nat.
Proof.
  unfold strip_chars, rstrip_chars. rewrite length_rev.
  etransitivity; [apply lstrip_length|]. rewrite length_rev.
  apply lstrip_length.
Qed.

Lemma strip_length (s : string) :
  (String.length (strip s) <= String.length s)%nat.
Proof.
  unfold strip. rewrite length_str, <- length_chars. apply strip_chars_length.
Qed.

Lemma slice_length (a b : nat) (s : string) :
  (String.length (slice a b s) <= String.length s - b - a)%nat.
Proof.
  unfold slice, slice_chars. rewrite length_str, <- length_chars.
  apply firstn_le_length.
Qed.

(** X15.  What fence stripping hands to the parser never has white
    space around it: stripping it again changes nothing. *)
Theorem strip_code_fence_is_stripped (s : string) :
  strip (strip_code_fence s) = strip_code_fence s.
Proof.
  unfold strip_code_fence. cbv zeta.
  destruct (startswith fence_json_tag (strip s) && endswith fence (strip s));
    [apply strip_idem|].
  destruct (startswith fence (strip s) && endswith fence (strip s));
    apply strip_idem.
Qed.

(** X16.  Fence stripping only removes characters: the result is never
    longer than the reply, and for a fence-shaped reply it is shorter
    than the stripped reply by at least the six backticks (it is empty
    when the opening and closing backticks overlap). *)
Theorem strip_code_fence_shrinks (s : string) :
  (String.length (strip_code_fence s) <= String.length s)%nat /\
  (fenced s = true ->
   String.length (strip_code_fence s) <= String.length (strip s) - 6)%nat.
Proof.
  pose proof (strip_length s) as Hs.
  unfold strip_code_fence, fenced. cbv zeta.
  destruct (startswith fence_json_tag (strip s) && endswith fence (strip s)) eqn:Hj.
  - pose proof (strip_length (slice 7 3 (strip s))) as H1.
    pose proof (slice_length 7 3 (strip s)) as H2. split; intros; lia.
  - destruct (startswith fence (strip s) && endswith fence (strip s)) eqn:Hp.
    + pose proof (strip_length (slice 3 3 (strip s))) as H1.
      pose proof (slice_length 3 3 (strip s)) as H2. split; intros; lia.
    + split; [exact Hs | discriminate].
Qed.

Lemma json_prefix_ignores_fence (b : list ascii) :
  prefix_chars (chars "json") (b ++ chars fence) = prefix_chars (chars "json") b.
Proof.
  destruct b as [|c1 [|c2 [|c3 [|c4 b]]]]; cbn;
    repeat match goal with
      | |- context [Ascii.eqb ?a ?b] => destruct (Ascii.eqb a b)
      end; reflexivity.
Qed.

Lemma padded_fence_chars (o1 o2 : string) (tag body : list ascii) :
  chars (o1 ++ str (delimited tag body) ++ o2)
  = (chars o1 ++ delimited tag body ++ chars o2)%list.
Proof. now rewrite !chars_app, chars_str. Qed.

Lemma strip_code_fence_delimited (o1 o2 : string) (tag body : list ascii) :
  all_space (chars o1) -> all_space (chars o2) ->
  strip (o1 ++ str (delimited tag body) ++ o2) = str (delimited tag body).
Proof.
  intros H1 H2. unfold strip.
  now rewrite padded_fence_chars, strip_chars_padded, delimited_strip.
Qed.

(** X17.  A [```json] fence is removed whatever surrounds the payload:
    white space (or none) around the whole reply and between the
    markers and the payload makes no difference. *)
Theorem strip_code_fence_json_fence (o1 o2 body : string) :
  all_space (chars o1) -> all_space (chars o2) ->
  strip_code_fence (o1 ++ (fence_json_tag ++ body ++ fence) ++ o2) = strip body.
Proof.
  intros H1 H2.
  assert (Heq : fence_json_tag ++ body ++ fence
                = str (delimited (List.tl (chars fence_json_tag)) (chars body))).
  { rewrite <- (str_chars (fence_json_tag ++ body ++ fence)).
    f_equal. now rewrite !chars_app. }
  unfold strip_code_fence. cbv zeta.
  rewrite Heq, strip_code_fence_delimited by assumption.
  unfold startswith, endswith, slice. rewrite !chars_str, delimited_ends.
  change (prefix_chars (chars fence_json_tag) (delimited ?t ?b)) with true.
  cbn [andb].
  now rewrite (delimited_slice (List.tl (chars fence_json_tag))), str_chars.
Qed.

(** X18.  A plain [```] fence is removed in the same way, provided the
    payload does not itself begin with the letters [json]; in
    particular a fence with any other language tag keeps that tag in
    front of the payload. *)
Theorem strip_code_fence_plain_fence (o1 o2 body : string) :
  all_space (chars o1) -> all_space (chars o2) ->
  startswith "json" body = false ->
  strip_code_fence (o1 ++ (fence ++ body ++ fence) ++ o2) = strip body.
Proof.
  intros H1 H2 Hb.
  assert (Heq : fence ++ body ++ fence
                = str (delimited (List.tl (chars fence)) (chars body))).
  { rewrite <- (str_chars (fence ++ body ++ fence)).
    f_equal. now rewrite !chars_app. }
  unfold strip_code_fence. cbv zeta.
  rewrite Heq, strip_code_fence_delimited by assumption.
  unfold startswith, endswith, slice. rewrite !chars_str, delimited_ends.
  assert (Hno : prefix_chars (chars fence_json_tag)
                  (delimited (List.tl (chars fence)) (chars body)) = false).
  { unfold delimited.
    change (prefix_chars (chars fence_json_tag)
              ((backtick :: List.tl (chars fence)) ++ chars body ++ chars fence))
      with (prefix_chars (chars "json") (chars body ++ chars fence)).
    rewrite json_prefix_ignores_fence. exact Hb. }
  rewrite Hno.
  change (prefix_chars (chars fence) (delimited ?t ?b)) with true.
  cbn [andb].
  now rewrite (delimited_slice (List.tl (chars fence))), str_chars.
Qed.

(** X19.  A reply made of white space only (the empty reply included)
    is stripped to the empty string, which [json.loads] rejects. *)
Theorem blank_reply_never_parses {J : JsonLib} (s : string) :
  all_space (chars s) ->
  strip_code_fence s = "" /\ exists e, json_loads (strip_code_fence s) = inl e.
Proof.
  intros H.
  assert (Hs : strip s = "").
  { unfold strip, strip_chars. now rewrite (lstrip_all_space _ H). }
  assert (Hf : strip_code_fence s = "").
  { unfold strip_code_fence. cbv zeta. now rewrite Hs. }
  split; [exact Hf|]. rewrite Hf. apply json_loads_empty.
Qed.

End FenceFacts.

(** ** Running the handler *)

Section PipelineFacts.

Context {W : Type} {J : JsonLib} {P : Prompts} {C : Collaborators W}.

Lemma bind_unfold {A B} (m : @M W A) (k : A -> @M W B) s :
  bind m k s =
  match m s with
  | (inr a, s') => k a s'
  | (inl e, s') => (inl e, s')
  end.
Proof. reflexivity. Qed.

Lemma bind_ok {A B} (m : @M W A) (k : A -> @M W B) s a s' :
  m s = (inr a, s') -> bind m k s = k a s'.
Proof. unfold bind. now intros ->. Qed.

Lemma bind_raise {A B} (m : @M W A) (k : A -> @M W B) s e s' :
  m s = (inl e, s') -> bind m k s = (inl e, s').
Proof. unfold bind. now intros ->. Qed.

Lemma lift_run {A} (r : result A) (s : @state W) : lift r s = (r, s).
Proof. reflexivity. Qed.

Lemma call_run {A} (op : W -> result A * W) ev (s : @state W) :
  call op ev s =
  (fst (op (fst s)), (snd (op (fst s)), (snd s ++ [ev (fst (op (fst s)))])%list)).
Proof. unfold call. now destruct (op (fst s)). Qed.

Lemma now_run (s : @state W) :
  now s = (inr (fst (now_isoformat (fst s))), (snd (now_isoformat (fst s)), snd s)).
Proof. unfold now. now destruct (now_isoformat (fst s)). Qed.


Lemma extract_trace pdf (s s' : @state W) r :
  extract_text_from_pdf_with_vision_ai pdf s = (r, s') ->
  exists evs, snd s' = (snd s ++ evs)%list /\
              quiet is_generate evs /\ quiet is_insert evs.
Proof.
  unfold extract_text_from_pdf_with_vision_ai.
  rewrite bind_unfold, call_run. cbn [fst snd].
  destruct (pdf_reader_pages pdf) as [e|pages].
  - intros [= <- <-]. eexists. split; [reflexivity|].
    split; repeat constructor.
  - destruct (Nat.eqb pages 0).
    + intros [= <- <-]. eexists. split; [reflexivity|].
      split; repeat constructor.
    + rewrite bind_unfold, call_run. cbn [fst snd].
      destruct (document_text_detection pdf (fst s)) as [[e|response] w'];
        cbn [fst snd].
      * intros [= <- <-]. exists [EvPdfReader pdf (inr pages); EvOcr pdf (inl e)].
        rewrite <- app_assoc. split; [reflexivity|]. split; repeat constructor.
      * intros H.
        assert (snd s' = ((snd s ++ [EvPdfReader pdf (inr pages)]) ++
                          [EvOcr pdf (inr response)])%list) as ->.
        { destruct (negb (error_message response =? ""));
            [|destruct (full_text_annotation response)];
            now inversion H. }
        exists [EvPdfReader pdf (inr pages); EvOcr pdf (inr response)].
        rewrite <- app_assoc. split; [reflexivity|]. split; repeat constructor.
Qed.

Lemma parse_trace t (s s' : @state W) r :
  parse_credit_report_with_gemini t s = (r, s') ->
  exists g, snd s' = (snd s ++ [EvGenerate (parse_prompt t) g])%list.
Proof.
  unfold parse_credit_report_with_gemini.
  rewrite bind_unfold, call_run. cbn [fst snd].
  destruct (generate_content (parse_prompt t) (fst s)) as [[e|g] w']; cbn [fst snd].
  - intros [= <- <-]. now eexists.
  - rewrite bind_unfold, lift_run. destruct (text g); rewrite ?lift_run;
      intros [= <- <-]; now eexists.
Qed.

Lemma detect_trace v (s s' : @state W) r :
  detect_violations_with_gemini v s = (r, s') ->
  exists p g, snd s' = (snd s ++ [EvGenerate p g])%list.
Proof.
  unfold detect_violations_with_gemini. cbv zeta.
  rewrite bind_unfold, call_run. cbn [fst snd].
  destruct (generate_content _ (fst s)) as [[e|g] w']; cbn [fst snd].
  - intros [= <- <-]. now do 2 eexists.
  - rewrite bind_unfold, lift_run. destruct (text g) as [e|t].
    + intros [= <- <-]. now do 2 eexists.
    + rewrite bind_unfold, lift_run. destruct (json_loads _) as [e|x].
      * intros [= <- <-]. now do 2 eexists.
      * rewrite bind_unfold, lift_run. destruct (Py.len x);
          intros [= <- <-]; now do 2 eexists.
Qed.

Lemma draft_trace pi v (s s' : @state W) r :
  generate_dispute_letter_with_gemini pi v s = (r, s') ->
  exists g,
    snd s' = (snd s ++ [EvGenerate (letter_prompt (json_dumps (Some 2) pi)
                                                  (json_dumps (Some 2) v)) g])%list.
Proof.
  unfold generate_dispute_letter_with_gemini. cbv zeta.
  rewrite bind_unfold, call_run. cbn [fst snd].
  destruct (generate_content _ (fst s)) as [[e|g] w']; cbn [fst snd].
  - intros [= <- <-]. now eexists.
  - rewrite lift_run. intros [= <- <-]. now eexists.
Qed.

Lemma parse_run t (s : @state W) g w' reply :
  generate_content (parse_prompt t) (fst s) = (inr g, w') ->
  text g = inr reply ->
  parse_credit_report_with_gemini t s =
  (json_loads (strip_code_fence reply),
   (w', (snd s ++ [EvGenerate (parse_prompt t) (inr g)])%list)).
Proof.
  intros Hg Ht. unfold parse_credit_report_with_gemini.
  rewrite bind_unfold, call_run, Hg. cbn [fst snd].
  now rewrite bind_unfold, lift_run, Ht.
Qed.

Lemma detect_run v (s : @state W) g w' reply x n :
  generate_content (detect_prompt (json_dumps (Some 2) v)) (fst s) = (inr g, w') ->
  text g = inr reply ->
  json_loads (strip_code_fence reply) = inr x ->
  Py.len x = inr n ->
  detect_violations_with_gemini v s =
  (inr x, (w', (snd s ++ [EvGenerate (detect_prompt (json_dumps (Some 2) v))
                                     (inr g)])%list)).
Proof.
  intros Hg Ht Hx Hn. unfold detect_violations_with_gemini. cbv zeta.
  rewrite bind_unfold, call_run, Hg. cbn [fst snd].
  rewrite bind_unfold, lift_run, Ht.
  rewrite bind_unfold, lift_run, Hx.
  now rewrite bind_unfold, lift_run, Hn.
Qed.

Lemma bind_lift_ok {A B} (r : result A) (k : A -> @M W B) s a :
  r = inr a -> bind (lift r) k s = k a s.
Proof. now intros ->. Qed.

Lemma bind_lift_raise {A B} (r : result A) (k : A -> @M W B) s e :
  r = inl e -> bind (lift r) k s = (inl e, s).
Proof. now intros ->. Qed.

Lemma bind_call_ok {A B} (op : W -> result A * W) ev (k : A -> @M W B) w tr a w' :
  op w = (inr a, w') ->
  bind (call op ev) k (w, tr) = k a (w', (tr ++ [ev (inr a)])%list).
Proof. intros H. unfold bind, call. cbn [fst snd]. now rewrite H. Qed.

Lemma bind_call_raise {A B} (op : W -> result A * W) ev (k : A -> @M W B) w tr e w' :
  op w = (inl e, w') ->
  bind (call op ev) k (w, tr) = (inl e, (w', (tr ++ [ev (inl e)])%list)).
Proof. intros H. unfold bind, call. cbn [fst snd]. now rewrite H. Qed.

Lemma eqb_empty_false (t : string) : t <> "" -> (t =? "") = false.
Proof. apply String.eqb_neq. Qed.

(** Line 288 either returns the value the fields are read from, or
    raises. *)
Lemma get_json_cases (req : request) :
  get_json req = inr (get_json_silent req) \/
  (exists e, get_json req = inl e /\ get_json_silent req = JNull).
Proof. unfold get_json_silent. destruct (get_json req) as [e|v]; eauto. Qed.

Lemma get_json_value (req : request) (v : json) :
  get_json_silent req = v -> v <> JNull -> get_json req = inr v.
Proof.
  intros <- Hv. destruct (get_json_cases req) as [H | (e & _ & H)]; [exact H|].
  now elim Hv.
Qed.

Lemma read_field_returned (req : request) (k : string) (r : result json) :
  read_field (get_json_silent req) k = r -> r <> inr JNull ->
  get_json req = inr (get_json_silent req).
Proof.
  intros <- Hr. destruct (get_json_cases req) as [H | (e & _ & H)]; [exact H|].
  elim Hr. now rewrite H.
Qed.

Lemma accepted_body (req : request) (url uid : json) :
  accepted req url uid -> get_json req = inr (get_json_silent req).
Proof.
  intros (Hu & _ & Ht & _). apply (read_field_returned _ _ _ Hu).
  intros [= ->]. discriminate.
Qed.

Ltac open_stage H :=
  lazymatch type of H with
  | drafted _ _ _ _ _ _ _ _ _ =>
      let H' := fresh "Hstage" in
      destruct H as (?s4 & ?personal_info & H' & ?Hinfo & ?Hdraft); open_stage H'
  | detected _ _ _ _ _ _ _ _ =>
      let H' := fresh "Hstage" in
      destruct H as (?s3 & H' & ?Hdetect); open_stage H'
  | structured _ _ _ _ _ _ _ =>
      let H' := fresh "Hstage" in
      destruct H as (?s2 & H' & ?Hparse & ?Htruthy); open_stage H'
  | extracted _ _ _ _ _ _ =>
      let H' := fresh "Hstage" in
      destruct H as (?pdf_response & ?w1 & H' & ?Hextract & ?Hnonempty);
      apply eqb_empty_false in Hnonempty; open_stage H'
  | fetched _ _ _ _ _ _ =>
      let H' := fresh "Hstage" in
      destruct H as (H' & ?Hget & ?Hstatus); open_stage H'
  | accepted _ _ _ =>
      pose proof (accepted_body _ _ _ H) as ?Hbody;
      destruct H as (?Hurl & ?Huser & ?Hturl & ?Htuser)
  end.

(** Run the handler along the steps the context says succeeded. *)
Ltac walk :=
  unfold run, process_credit_report, try_except;
  repeat first
    [ erewrite bind_lift_ok by eassumption
    | erewrite bind_call_ok by eassumption
    | erewrite bind_ok by eassumption
    | match goal with
      | H : Py.truthy ?v = true |- context [Py.truthy ?v] => rewrite H
      | H : (?t =? "") = false |- context [?t =? ""] => rewrite H
      end
    | progress cbn [negb orb app] ].

Lemma run_fetch_raises req w url uid e w1 :
  accepted req url uid ->
  requests_get url 30 w = (inl e, w1) ->
  run req w = (inr (error_body (exn_str e), 500%Z), (w1, [EvFetch url 30 (inl e)])).
Proof.
  intros Hacc Hget. open_stage Hacc. walk.
  now erewrite bind_call_raise by eassumption.
Qed.

Lemma run_fetch_bad_status req w url uid resp e w1 :
  accepted req url uid ->
  requests_get url 30 w = (inr resp, w1) ->
  raise_for_status resp = inl e ->
  run req w = (inr (error_body (exn_str e), 500%Z), (w1, [EvFetch url 30 (inr resp)])).
Proof.
  intros Hacc Hget Hst. open_stage Hacc. walk.
  now erewrite bind_lift_raise by eassumption.
Qed.

Lemma run_extract_raises req w url uid resp w1 e s2 :
  fetched req w url uid resp w1 ->
  extract_text_from_pdf_with_vision_ai (content resp)
    (w1, [EvFetch url 30 (inr resp)]) = (inl e, s2) ->
  run req w = (inr (error_body (exn_str e), 500%Z), s2).
Proof.
  intros Hst Hex. open_stage Hst. walk.
  now erewrite bind_raise by eassumption.
Qed.

Lemma run_extract_empty req w url uid resp w1 s2 :
  fetched req w url uid resp w1 ->
  extract_text_from_pdf_with_vision_ai (content resp)
    (w1, [EvFetch url 30 (inr resp)]) = (inr "", s2) ->
  run req w = (inr (error_body "Could not extract text from PDF.", 500%Z), s2).
Proof.
  intros Hst Hex. open_stage Hst. walk. reflexivity.
Qed.

Lemma run_parse_raises req w url uid text s2 e s3 :
  extracted req w url uid text s2 ->
  parse_credit_report_with_gemini text s2 = (inl e, s3) ->
  run req w = (inr (error_body (exn_str e), 500%Z), s3).
Proof.
  intros Hst Hp. open_stage Hst. walk.
  now erewrite bind_raise by eassumption.
Qed.

Lemma run_parse_falsy req w url uid text s2 v s3 :
  extracted req w url uid text s2 ->
  parse_credit_report_with_gemini text s2 = (inr v, s3) ->
  Py.truthy v = false ->
  run req w = (inr (error_body "Could not parse credit report data.", 500%Z), s3).
Proof.
  intros Hst Hp Hv. open_stage Hst. walk. now rewrite Hv.
Qed.

Lemma run_detect_raises req w url uid text report s3 e s4 :
  structured req w url uid text report s3 ->
  detect_violations_with_gemini report s3 = (inl e, s4) ->
  run req w = (inr (error_body (exn_str e), 500%Z), s4).
Proof.
  intros Hst Hp. open_stage Hst. walk.
  now erewrite bind_raise by eassumption.
Qed.

Lemma run_info_raises req w url uid text report violations s4 e :
  detected req w url uid text report violations s4 ->
  Py.get report "personal_info" (JObj []) = inl e ->
  run req w = (inr (error_body (exn_str e), 500%Z), s4).
Proof.
  intros Hst Hp. open_stage Hst. walk.
  now erewrite bind_lift_raise by eassumption.
Qed.

Lemma run_draft_raises req w url uid text report violations s4 info e s5 :
  detected req w url uid text report violations s4 ->
  Py.get report "personal_info" (JObj []) = inr info ->
  generate_dispute_letter_with_gemini info violations s4 = (inl e, s5) ->
  run req w = (inr (error_body (exn_str e), 500%Z), s5).
Proof.
  intros Hst Hi Hp. open_stage Hst. walk.
  now erewrite bind_raise by eassumption.
Qed.

(** Once the letter is drafted, the record is stamped and written, and
    the answer depends only on how the write went. *)
Lemma run_drafted req w url uid text report violations letter s5 :
  drafted req w url uid text report violations letter s5 ->
  let stamp := now_isoformat (fst s5) in
  let record := analysis_record uid url text report violations letter (fst stamp) in
  let written := table_insert "credit_reports_analysis" record (snd stamp) in
  run req w =
  (inr (answer_after_insert (fst written) report violations),
   (snd written,
    (snd s5 ++ [EvInsert "credit_reports_analysis" record (fst written)])%list)).
Proof.
  intros Hst. open_stage Hst. cbv zeta. walk.
  rewrite bind_unfold, now_run. cbn [fst snd].
  rewrite bind_unfold, call_run. cbn [fst snd].
  unfold answer_after_insert.
  destruct (fst (table_insert _ _ _)) as [e|data]; [reflexivity|].
  rewrite bind_unfold, lift_run.
  now destruct (summary_of report violations).
Qed.


Lemma run_read_raises req w k e :
  (k = "pdf_url" /\ read_field (get_json_silent req) "pdf_url" = inl e) \/
  (k = "user_id" /\ (exists url, read_field (get_json_silent req) "pdf_url" = inr url) /\
   read_field (get_json_silent req) "user_id" = inl e) ->
  run req w = (inl e, (w, [])).
Proof.
  intros H.
  assert (Hbody : get_json req = inr (get_json_silent req)).
  { destruct H as [[_ H] | [_ [_ H]]];
      apply (read_field_returned _ _ _ H); discriminate. }
  unfold run, process_credit_report.
  erewrite bind_lift_ok by exact Hbody.
  destruct H as [[_ H] | [_ [[url Hu] H]]].
  - now erewrite bind_lift_raise by eassumption.
  - erewrite bind_lift_ok by eassumption.
    now erewrite bind_lift_raise by eassumption.
Qed.

(** An exception of line 288 leaves the handler at once. *)
Lemma run_body_raises req w e :
  get_json req = inl e -> run req w = (inl e, (w, [])).
Proof.
  intros H. unfold run, process_credit_report.
  now erewrite bind_lift_raise by exact H.
Qed.

Lemma run_rejected req w url uid :
  get_json req = inr (get_json_silent req) ->
  read_field (get_json_silent req) "pdf_url" = inr url ->
  read_field (get_json_silent req) "user_id" = inr uid ->
  Py.truthy url = false \/ Py.truthy uid = false ->
  run req w = (inr (error_body "Missing pdf_url or user_id", 400%Z), (w, [])).
Proof.
  intros Hbody Hu Hi Hf. unfold run, process_credit_report.
  erewrite bind_lift_ok by exact Hbody.
  erewrite bind_lift_ok by eassumption.
  erewrite bind_lift_ok by eassumption.
  destruct Hf as [-> | ->]; [reflexivity|].
  now rewrite orb_true_r.
Qed.

Lemma aborted_intro (r : result (string * Z)) (s : @state W) :
  quiet is_insert (snd s) ->
  (forall body, r <> inr (body, 200%Z)) ->
  aborted (r, s).
Proof. intros; split; assumption. Qed.

Ltac quiet_trace :=
  repeat match goal with
    | H : snd ?s = _ |- context [snd ?s] => rewrite H
    end;
  cbn [snd app];
  repeat first [ apply Forall_nil | apply Forall_cons; [reflexivity|]
               | apply Forall_app; split | assumption ].

(** Either the invocation never reaches the datastore and does not
    answer 200, or it got through all five upstream steps. *)
Lemma run_dichotomy req w :
  aborted (run req w) \/
  exists url uid text report violations letter s5,
    drafted req w url uid text report violations letter s5 /\
    quiet is_insert (snd s5).
Proof.
  destruct (get_json_cases req) as [Hbody | (e & Hraise & _)];
    [|left; rewrite (run_body_raises req w e) by assumption;
      apply aborted_intro; [constructor | discriminate]].
  destruct (read_field (get_json_silent req) "pdf_url") as [e|url] eqn:Hurl.
  { left. rewrite (run_read_raises req w "pdf_url" e) by auto.
    apply aborted_intro; [constructor | discriminate]. }
  destruct (read_field (get_json_silent req) "user_id") as [e|uid] eqn:Huser.
  { left. rewrite (run_read_raises req w "user_id" e) by eauto 6.
    apply aborted_intro; [constructor | discriminate]. }
  destruct (Py.truthy url) eqn:Hturl;
    [|left; rewrite (run_rejected req w url uid) by auto;
      apply aborted_intro; [constructor | discriminate]].
  destruct (Py.truthy uid) eqn:Htuser;
    [|left; rewrite (run_rejected req w url uid) by auto;
      apply aborted_intro; [constructor | discriminate]].
  assert (Hacc : accepted req url uid) by (repeat split; assumption).
  destruct (requests_get url 30 w) as [[e|resp] w1] eqn:Hget.
  { left. rewrite (run_fetch_raises req w url uid e w1) by assumption.
    apply aborted_intro; [quiet_trace | discriminate]. }
  destruct (raise_for_status resp) as [e|[]] eqn:Hstatus.
  { left. rewrite (run_fetch_bad_status req w url uid resp e w1) by assumption.
    apply aborted_intro; [quiet_trace | discriminate]. }
  assert (Hfetched : fetched req w url uid resp w1) by (repeat split; assumption).
  destruct (extract_text_from_pdf_with_vision_ai (content resp)
              (w1, [EvFetch url 30 (inr resp)])) as [[e|text] s2] eqn:Hextract;
    pose proof (extract_trace _ _ _ _ Hextract) as (evs & Htr2 & _ & Hq2);
    cbn [snd] in Htr2.
  { left. rewrite (run_extract_raises req w url uid resp w1 e s2) by assumption.
    apply aborted_intro; [quiet_trace | discriminate]. }
  destruct (string_dec text "") as [-> | Hnonempty].
  { left. rewrite (run_extract_empty req w url uid resp w1 s2) by assumption.
    apply aborted_intro; [quiet_trace | discriminate]. }
  assert (Hextracted : extracted req w url uid text s2) by (exists resp, w1; auto).
  destruct (parse_credit_report_with_gemini text s2) as [[e|report] s3] eqn:Hparse;
    pose proof (parse_trace _ _ _ _ Hparse) as (g3 & Htr3).
  { left. rewrite (run_parse_raises req w url uid text s2 e s3) by assumption.
    apply aborted_intro; [quiet_trace | discriminate]. }
  destruct (Py.truthy report) eqn:Htruthy;
    [|left; rewrite (run_parse_falsy req w url uid text s2 report s3) by assumption;
      apply aborted_intro; [quiet_trace | discriminate]].
  assert (Hstructured : structured req w url uid text report s3)
    by (exists s2; auto).
  destruct (detect_violations_with_gemini report s3) as [[e|violations] s4] eqn:Hdetect;
    pose proof (detect_trace _ _ _ _ Hdetect) as (p4 & g4 & Htr4).
  { left. rewrite (run_detect_raises req w url uid text report s3 e s4) by assumption.
    apply aborted_intro; [quiet_trace | discriminate]. }
  assert (Hdetected : detected req w url uid text report violations s4)
    by (exists s3; auto).
  destruct (Py.get report "personal_info" (JObj [])) as [e|info] eqn:Hinfo.
  { left. rewrite (run_info_raises req w url uid text report violations s4 e) by assumption.
    apply aborted_intro; [quiet_trace | discriminate]. }
  destruct (generate_dispute_letter_with_gemini info violations s4)
    as [[e|letter] s5] eqn:Hdraft;
    pose proof (draft_trace _ _ _ _ _ Hdraft) as (g5 & Htr5).
  { left. rewrite (run_draft_raises req w url uid text report violations s4 info e s5)
      by assumption.
    apply aborted_intro; [quiet_trace | discriminate]. }
  right. exists url, uid, text, report, violations, letter, s5. split.
  - exists s4, info. auto.
  - quiet_trace.
Qed.


(** ** The request body *)

Lemma read_field_object (fields : list (string * json)) (k : string) :
  read_field (JObj fields) k =
  inr (match Py.lookup k fields with Some v => v | None => JNull end).
Proof.
  unfold read_field. destruct fields as [|kv fields]; [reflexivity|].
  cbn [Py.truthy Py.contains Py.getitem].
  now destruct (Py.lookup k (kv :: fields)).
Qed.

(** The three ways in which line 288 yields [None]. *)
Lemma get_json_none (req : request) :
  is_json req = false \/ get_data req = "" \/
  (exists e, json_loads (get_data req) = inl e /\ Py.is_value_error e = true) ->
  get_json req = inr JNull.
Proof.
  unfold get_json. intros [H | [H | (e & H & He)]].
  - now rewrite H.
  - rewrite H. destruct json_loads_empty as [e He].
    rewrite He, (json_loads_empty_class e He). now destruct (is_json req).
  - rewrite H, He. now destruct (is_json req).
Qed.

Lemma get_json_silent_of (req : request) (v : json) :
  get_json req = inr v -> get_json_silent req = v.
Proof. unfold get_json_silent. now intros ->. Qed.

(** A JSON-object body that lacks one of the two fields, or carries a
    falsy value for it, is answered 400 before any collaborator call. *)
Lemma run_object_missing_field req w fields :
  get_json_silent req = JObj fields ->
  (match Py.lookup "pdf_url" fields with
   | Some v => Py.truthy v = false | None => True end) \/
  (match Py.lookup "user_id" fields with
   | Some v => Py.truthy v = false | None => True end) ->
  run req w = (inr (error_body "Missing pdf_url or user_id", 400%Z), (w, [])).
Proof.
  intros Hbody Hmiss.
  assert (Hret : get_json req = inr (get_json_silent req)).
  { rewrite Hbody. now apply get_json_value. }
  eapply run_rejected; [exact Hret|..]; rewrite ?Hbody; try apply read_field_object.
  destruct Hmiss as [H | H]; [left | right];
    now destruct (Py.lookup _ fields).
Qed.

(** C1 (defect in the code).  A body that is valid JSON but not an
    object, here a non-zero integer, lacks both fields, yet the handler
    does not answer 400: the membership test of main.py:295 raises
    [TypeError] outside the [try] block and the exception escapes. *)
Theorem non_object_body_escapes req w z :
  get_json_silent req = JInt z -> z <> 0%Z ->
  run req w =
  (inl (Py.TypeError "argument of type 'int' is not iterable"), (w, [])).
Proof.
  intros Hbody Hz. apply (run_read_raises req w "pdf_url"). left.
  split; [reflexivity|]. rewrite Hbody. unfold read_field.
  cbn [Py.truthy]. apply Z.eqb_neq in Hz. now rewrite Hz.
Qed.

(** C10 (amended).  When the request is not sent as JSON, when its body
    is absent, or when the parser rejects the body with a [ValueError]
    (a [JSONDecodeError], a [UnicodeDecodeError]),
    [get_json(silent=True)] yields [None], both fields count as
    missing, and the answer is HTTP 400 with the serialised object of
    status [error] and message [Missing pdf_url or user_id]; nothing is
    raised and no collaborator is called. *)
Theorem malformed_body_is_400 req w :
  is_json req = false \/ get_data req = "" \/
  (exists e, json_loads (get_data req) = inl e /\ Py.is_value_error e = true) ->
  run req w =
  (inr (json_dumps None
          (JObj [("status", JStr "error");
                 ("message", JStr "Missing pdf_url or user_id")]),
        400%Z),
   (w, [])).
Proof.
  intros H. apply get_json_none in H.
  pose proof (get_json_silent_of _ _ H) as Hnone.
  apply (run_rejected req w JNull JNull); rewrite ?Hnone; auto.
Qed.

(** ** Fetch *)

Lemma raise_for_status_bad (resp : http_response) :
  (400 <= status_code resp < 600)%Z ->
  exists e, raise_for_status resp = inl e.
Proof.
  intros [Hlo Hhi]. unfold raise_for_status. cbv zeta.
  apply Z.leb_le in Hlo. apply Z.ltb_lt in Hhi. rewrite Hlo, Hhi.
  cbn [andb].
  destruct (status_code resp <? 500)%Z eqn:H4; [now eexists|].
  destruct (500 <=? status_code resp)%Z eqn:H5; [now eexists|].
  apply Z.ltb_ge in H4. apply Z.leb_gt in H5. lia.
Qed.

(** C4 (amended).  When the request passed validation and the fetch
    raised or came back with a 4xx or 5xx status, the answer is HTTP 500
    with the error envelope and the fetch is the only call made: no
    extraction, structuring, detection, drafting or persistence. *)
Theorem fetch_failure_aborts req w url uid r w1 :
  accepted req url uid ->
  requests_get url 30 w = (r, w1) ->
  fetch_failed r ->
  exists message,
    run req w = (inr (error_body message, 500%Z), (w1, [EvFetch url 30 r])).
Proof.
  intros Hacc Hget Hfail. destruct r as [e|resp].
  - exists (exn_str e). now apply run_fetch_raises with (uid := uid).
  - destruct (raise_for_status_bad resp Hfail) as [e He].
    exists (exn_str e). now apply run_fetch_bad_status with (uid := uid).
Qed.

(** ** Extraction *)

(** C5.  When the request passed validation, the document was fetched,
    and text extraction returned the empty string or raised (the OCR
    service reporting an error included), the answer is HTTP 500 with
    the error envelope and the generative model is never called. *)
Theorem extraction_failure_aborts req w url uid resp w1 r s2 :
  fetched req w url uid resp w1 ->
  extract_text_from_pdf_with_vision_ai (content resp)
    (w1, [EvFetch url 30 (inr resp)]) = (r, s2) ->
  r = inr "" \/ (exists e, r = inl e) ->
  (exists message, run req w = (inr (error_body message, 500%Z), s2)) /\
  quiet is_generate (trace_of (run req w)) /\
  quiet is_insert (trace_of (run req w)).
Proof.
  intros Hf Hex Hr.
  destruct (extract_trace _ _ _ _ Hex) as (evs & Htr & Hg & Hi).
  cbn [snd] in Htr.
  assert (Hrun : exists message, run req w = (inr (error_body message, 500%Z), s2)).
  { destruct Hr as [-> | [e ->]]; eexists.
    - eapply run_extract_empty; eassumption.
    - eapply run_extract_raises; eassumption. }
  split; [exact Hrun|]. destruct Hrun as [message ->].
  unfold trace_of. cbn [snd]. rewrite Htr.
  split; apply Forall_cons; auto.
Qed.

(** The OCR service reporting an error makes extraction raise. *)
Lemma extract_ocr_error pdf (s : @state W) pages response w' :
  pdf_reader_pages pdf = inr pages -> pages <> 0%nat ->
  document_text_detection pdf (fst s) = (inr response, w') ->
  error_message response <> "" ->
  fst (extract_text_from_pdf_with_vision_ai pdf s)
  = inl (Py.Exception ("Vision AI error: " ++ error_message response)).
Proof.
  intros Hp Hn Hocr Hmsg. unfold extract_text_from_pdf_with_vision_ai.
  rewrite bind_unfold, call_run. cbn [fst snd]. rewrite Hp.
  apply Nat.eqb_neq in Hn. rewrite Hn.
  rewrite bind_unfold, call_run. cbn [fst snd]. rewrite Hocr. cbn [fst snd].
  apply String.eqb_neq in Hmsg. now rewrite Hmsg.
Qed.

(** An OCR reply without a text annotation makes extraction return the
    empty string. *)
Lemma extract_no_annotation pdf (s : @state W) pages response w' :
  pdf_reader_pages pdf = inr pages -> pages <> 0%nat ->
  document_text_detection pdf (fst s) = (inr response, w') ->
  error_message response = "" ->
  full_text_annotation response = None ->
  fst (extract_text_from_pdf_with_vision_ai pdf s) = inr "".
Proof.
  intros Hp Hn Hocr Hmsg Hann. unfold extract_text_from_pdf_with_vision_ai.
  rewrite bind_unfold, call_run. cbn [fst snd]. rewrite Hp.
  apply Nat.eqb_neq in Hn. rewrite Hn.
  rewrite bind_unfold, call_run. cbn [fst snd]. rewrite Hocr. cbn [fst snd].
  now rewrite Hmsg, Hann.
Qed.


(** ** Structuring *)

(** C6.  When the pipeline reached the structuring step and the model's
    reply is empty text, or is not valid JSON once the fence is
    stripped, or parses to a falsy value, the answer is HTTP 500 with
    the error envelope, and the structuring call is the last call
    made: nothing is detected, drafted or stored. *)
Theorem unusable_structure_aborts req w url uid extracted_text s2 g w3 reply :
  extracted req w url uid extracted_text s2 ->
  generate_content (parse_prompt extracted_text) (fst s2) = (inr g, w3) ->
  text g = inr reply ->
  reply = "" \/
  (exists e, json_loads (strip_code_fence reply) = inl e) \/
  (exists v, json_loads (strip_code_fence reply) = inr v /\ Py.truthy v = false) ->
  exists message,
    run req w =
    (inr (error_body message, 500%Z),
     (w3, (snd s2 ++ [EvGenerate (parse_prompt extracted_text) (inr g)])%list)).
Proof.
  intros Hex Hg Ht Hbad.
  pose proof (parse_run _ _ _ _ _ Hg Ht) as Hparse.
  assert (Hcases : (exists e, json_loads (strip_code_fence reply) = inl e) \/
                   (exists v, json_loads (strip_code_fence reply) = inr v /\
                              Py.truthy v = false)).
  { destruct Hbad as [-> | H]; [left | exact H].
    change (strip_code_fence "") with "". apply json_loads_empty. }
  destruct Hcases as [[e He] | [v [Hv Hfalsy]]].
  - rewrite He in Hparse. eexists. eapply run_parse_raises; eassumption.
  - rewrite Hv in Hparse. eexists. eapply run_parse_falsy; eassumption.
Qed.

(** ** Detection, drafting, persistence *)

Lemma counted_len (v : json) (n : Z) : Py.len v = inr n <-> counted (Some v) n.
Proof.
  destruct v; cbn [counted Py.len]; try tauto.
  split; [now intros [= <-] | now intros ->].
Qed.

Lemma counted_entry (fields : list (string * json)) (k : string) (n : Z) :
  counted (Py.lookup k fields) n <->
  exists v, Py.get (JObj fields) k (JArr []) = inr v /\ Py.len v = inr n.
Proof.
  cbn [Py.get]. destruct (Py.lookup k fields) as [v|] eqn:Hk.
  - rewrite <- counted_len. split.
    + intros H. exists v. now split.
    + now intros (v' & [= <-] & H).
  - cbn [counted]. split.
    + intros ->. exists (JArr []). now split.
    + now intros (v' & [= <-] & [= <-]).
Qed.

Lemma summary_of_counts (report violations : json) (counts : json) :
  summary_of report violations = inr counts <->
  exists fields nv na ni,
    report = JObj fields /\ counts = summary nv na ni /\
    counted (Some violations) nv /\
    counted (Py.lookup "accounts" fields) na /\
    counted (Py.lookup "inquiries" fields) ni.
Proof.
  split.
  - unfold summary_of.
    destruct (Py.len violations) as [e|nv] eqn:Hv; [discriminate|].
    destruct (Py.get report "accounts" (JArr [])) as [e|acc] eqn:Ha; [discriminate|].
    destruct (Py.len acc) as [e|na] eqn:Hla; [discriminate|].
    destruct (Py.get report "inquiries" (JArr [])) as [e|inq] eqn:Hi; [discriminate|].
    destruct (Py.len inq) as [e|ni] eqn:Hli; [discriminate|].
    intros [= <-].
    destruct report as [| | | | | |fields]; try discriminate.
    exists fields, nv, na, ni. repeat split.
    + now apply counted_len.
    + apply counted_entry. eauto.
    + apply counted_entry. eauto.
  - intros (fields & nv & na & ni & -> & -> & Hv & Ha & Hi).
    apply counted_len in Hv.
    apply counted_entry in Ha. destruct Ha as (acc & Ha & Hla).
    apply counted_entry in Hi. destruct Hi as (inq & Hi & Hli).
    unfold summary_of. now rewrite Hv, Ha, Hla, Hi, Hli.
Qed.

Lemma detected_quiet req w url uid etext report violations s4 :
  detected req w url uid etext report violations s4 ->
  quiet is_insert (snd s4).
Proof.
  intros Hd. open_stage Hd.
  destruct (extract_trace _ _ _ _ Hextract) as (evs & Htr2 & _ & Hq2).
  cbn [snd] in Htr2.
  destruct (parse_trace _ _ _ _ Hparse) as (g3 & Htr3).
  destruct (detect_trace _ _ _ _ Hdetect) as (p4 & g4 & Htr4).
  quiet_trace.
Qed.


(** C9.  Whenever the answer is 200, its body is the serialised success
    payload, whose [summary] entry is an object of exactly the three
    entries [violations_found], [accounts_analyzed] and
    [inquiries_found]: the length of the violations value and of the
    [accounts] and [inquiries] entries of the structured report that
    were written to the datastore, an absent entry counting as zero. *)
Theorem summary_counts req w body :
  response_of (run req w) = inr (body, 200%Z) ->
  exists url uid extracted_text fields violations letter stamp data nv na ni,
    In (EvInsert "credit_reports_analysis"
          (analysis_record uid url extracted_text (JObj fields) violations
                           letter stamp)
          (inr data))
       (trace_of (run req w)) /\
    body = json_dumps None
             (JObj [("status", JStr "success");
                    ("message", JStr "Credit report processed successfully");
                    ("data", data);
                    ("summary",
                     JObj [("violations_found", JInt nv);
                           ("accounts_analyzed", JInt na);
                           ("inquiries_found", JInt ni)])]) /\
    counted (Some violations) nv /\
    counted (Py.lookup "accounts" fields) na /\
    counted (Py.lookup "inquiries" fields) ni.
Proof.
  intros Hok.
  destruct (run_dichotomy req w)
    as [[_ Hno] | (url & uid & etext & report & violations & letter & s5 & Hd & Hq)].
  { exfalso. exact (Hno body Hok). }
  pose proof (run_drafted _ _ _ _ _ _ _ _ _ Hd) as Hrun. cbv zeta in Hrun.
  rewrite Hrun in Hok |- *. unfold trace_of, response_of in *. cbn [fst snd] in *.
  unfold answer_after_insert in Hok.
  destruct (fst (table_insert _ _ _)) as [e|data]; [discriminate|].
  destruct (summary_of report violations) as [e|counts] eqn:Hsum; [discriminate|].
  injection Hok as <-.
  apply summary_of_counts in Hsum.
  destruct Hsum as (fields & nv & na & ni & -> & -> & Hv & Ha & Hi).
  exists url, uid, etext, fields, violations, letter,
    (fst (now_isoformat (fst s5))), data, nv, na, ni.
  repeat split; auto. apply in_or_app. right. now left.
Qed.

(** C7 (amended).  When the pipeline reached detection with a
    structured report that is a JSON object and the model's reply
    parses to the empty array, detection returns that empty list and
    the letter is requested for it; if the letter call returns, the
    record holding the empty violation list is written; and if the
    write returns and the report's [accounts] and [inquiries] entries
    can be counted, the answer is HTTP 200 with the serialised success
    payload whose summary has [violations_found] equal to 0. *)
Theorem empty_violations_continue req w url uid extracted_text fields s3 g w4 reply :
  let report := JObj fields in
  let prompt := detect_prompt (json_dumps (Some 2) report) in
  let s4 := (w4, (snd s3 ++ [EvGenerate prompt (inr g)])%list) in
  let info := match Py.lookup "personal_info" fields with
              | Some v => v
              | None => JObj []
              end in
  let letter_request :=
    letter_prompt (json_dumps (Some 2) info) (json_dumps (Some 2) (JArr [])) in
  structured req w url uid extracted_text report s3 ->
  generate_content prompt (fst s3) = (inr g, w4) ->
  text g = inr reply ->
  json_loads (strip_code_fence reply) = inr (JArr []) ->
  detected req w url uid extracted_text report (JArr []) s4 /\
  (exists answer, In (EvGenerate letter_request answer) (trace_of (run req w))) /\
  forall letter s5,
    generate_dispute_letter_with_gemini info (JArr []) s4 = (inr letter, s5) ->
    let stamp := now_isoformat (fst s5) in
    let record := analysis_record uid url extracted_text report (JArr []) letter
                                  (fst stamp) in
    let written := table_insert "credit_reports_analysis" record (snd stamp) in
    In (EvInsert "credit_reports_analysis" record (fst written))
       (trace_of (run req w)) /\
    forall data na ni,
      fst written = inr data ->
      counted (Py.lookup "accounts" fields) na ->
      counted (Py.lookup "inquiries" fields) ni ->
      response_of (run req w) =
      inr (json_dumps None
             (JObj [("status", JStr "success");
                    ("message", JStr "Credit report processed successfully");
                    ("data", data);
                    ("summary",
                     JObj [("violations_found", JInt 0);
                           ("accounts_analyzed", JInt na);
                           ("inquiries_found", JInt ni)])]),
           200%Z).
Proof.
  intros report prompt s4 info letter_request Hst Hg Ht Hparse.
  assert (Hdet : detected req w url uid extracted_text report (JArr []) s4).
  { exists s3. split; [exact Hst|].
    eapply detect_run; try eassumption. reflexivity. }
  assert (Hinfo : Py.get report "personal_info" (JObj []) = inr info) by reflexivity.
  split; [exact Hdet|].
  assert (Hforward : forall letter s5,
    generate_dispute_letter_with_gemini info (JArr []) s4 = (inr letter, s5) ->
    drafted req w url uid extracted_text report (JArr []) letter s5).
  { intros letter s5 Hdraft. exists s4, info. auto. }
  split.
  - destruct (generate_dispute_letter_with_gemini info (JArr []) s4)
      as [[e|letter] s5] eqn:Hdraft;
      destruct (draft_trace _ _ _ _ _ Hdraft) as (g5 & Htr5).
    + rewrite (run_draft_raises _ _ _ _ _ _ _ _ _ _ _ Hdet Hinfo Hdraft).
      unfold trace_of. cbn [snd]. rewrite Htr5.
      exists g5. apply in_or_app. right. now left.
    + pose proof (run_drafted _ _ _ _ _ _ _ _ _ (Hforward _ _ eq_refl)) as Hrun.
      cbv zeta in Hrun. rewrite Hrun. unfold trace_of. cbn [snd]. rewrite Htr5.
      exists g5. apply in_or_app. left. apply in_or_app. right. now left.
  - intros letter s5 Hdraft stamp record written.
    pose proof (run_drafted _ _ _ _ _ _ _ _ _ (Hforward _ _ Hdraft)) as Hrun.
    cbv zeta in Hrun. fold stamp record written in Hrun. rewrite Hrun.
    unfold trace_of, response_of. cbn [fst snd]. split.
    + apply in_or_app. right. now left.
    + intros data na ni Hw Ha Hi. rewrite Hw. unfold answer_after_insert.
      assert (Hsum : summary_of report (JArr []) = inr (summary 0 na ni)).
      { apply summary_of_counts. exists fields, 0%Z, na, ni.
        repeat split; auto. }
      now rewrite Hsum.
Qed.

(** C8 (amended).  When the pipeline reached the drafting step and the
    letter-generation call fails, the answer is HTTP 500 with the
    failure's message in the error envelope and nothing is written to
    the datastore; when it returns non-empty text, the record written
    carries that text, unchanged, as its [dispute_letter]. *)
Theorem draft_failure_is_500 req w url uid extracted_text report violations s4 info :
  detected req w url uid extracted_text report violations s4 ->
  Py.get report "personal_info" (JObj []) = inr info ->
  (forall e s5,
     generate_dispute_letter_with_gemini info violations s4 = (inl e, s5) ->
     run req w = (inr (error_body (exn_str e), 500%Z), s5) /\
     quiet is_insert (snd s5)) /\
  (forall letter s5,
     generate_dispute_letter_with_gemini info violations s4 = (inr letter, s5) ->
     letter <> "" ->
     exists record r,
       In (EvInsert "credit_reports_analysis" record r) (trace_of (run req w)) /\
       Py.getitem record "dispute_letter" = inr (JStr letter)).
Proof.
  intros Hdet Hinfo. split.
  - intros e s5 Hdraft. split.
    + eapply run_draft_raises; eassumption.
    + destruct (draft_trace _ _ _ _ _ Hdraft) as (g5 & Htr5).
      pose proof (detected_quiet _ _ _ _ _ _ _ _ Hdet) as Hq. quiet_trace.
  - intros letter s5 Hdraft _.
    assert (Hd : drafted req w url uid extracted_text report violations letter s5)
      by (exists s4, info; auto).
    pose proof (run_drafted _ _ _ _ _ _ _ _ _ Hd) as Hrun. cbv zeta in Hrun.
    rewrite Hrun. unfold trace_of. cbn [snd].
    do 2 eexists. split; [apply in_or_app; right; now left | reflexivity].
Qed.

(** ** Every way an invocation ends *)

Lemma run_ends req w : ends req w (run req w).
Proof.
  destruct (get_json_cases req) as [Hbody | (e & Hraise & _)];
    [|rewrite (run_body_raises req w e) by assumption;
      now apply Ends_body_raised].
  destruct (read_field (get_json_silent req) "pdf_url") as [e|url] eqn:Hurl.
  { rewrite (run_read_raises req w "pdf_url" e) by auto.
    apply (Ends_escaped req w "pdf_url"). auto. }
  destruct (read_field (get_json_silent req) "user_id") as [e|uid] eqn:Huser.
  { rewrite (run_read_raises req w "user_id" e) by eauto 6.
    apply (Ends_escaped req w "user_id"). eauto 6. }
  destruct (Py.truthy url) eqn:Hturl;
    [|rewrite (run_rejected req w url uid) by auto;
      eapply Ends_rejected; eauto].
  destruct (Py.truthy uid) eqn:Htuser;
    [|rewrite (run_rejected req w url uid) by auto;
      eapply Ends_rejected; eauto].
  assert (Hacc : accepted req url uid) by (repeat split; assumption).
  destruct (requests_get url 30 w) as [[e|resp] w1] eqn:Hget.
  { rewrite (run_fetch_raises req w url uid e w1) by assumption.
    eapply Ends_fetch_raised; eauto. }
  destruct (raise_for_status resp) as [e|[]] eqn:Hstatus.
  { rewrite (run_fetch_bad_status req w url uid resp e w1) by assumption.
    eapply Ends_bad_status; eauto. }
  assert (Hfetched : fetched req w url uid resp w1) by (repeat split; assumption).
  destruct (extract_text_from_pdf_with_vision_ai (content resp)
              (w1, [EvFetch url 30 (inr resp)])) as [[e|text] s2] eqn:Hextract.
  { rewrite (run_extract_raises req w url uid resp w1 e s2) by assumption.
    eapply Ends_extract_raised; eauto. }
  destruct (string_dec text "") as [-> | Hnonempty].
  { rewrite (run_extract_empty req w url uid resp w1 s2) by assumption.
    eapply Ends_no_text; eauto. }
  assert (Hextracted : extracted req w url uid text s2) by (exists resp, w1; auto).
  destruct (parse_credit_report_with_gemini text s2) as [[e|report] s3] eqn:Hparse.
  { rewrite (run_parse_raises req w url uid text s2 e s3) by assumption.
    eapply Ends_parse_raised; eauto. }
  destruct (Py.truthy report) eqn:Htruthy;
    [|rewrite (run_parse_falsy req w url uid text s2 report s3) by assumption;
      eapply Ends_falsy_report; eauto].
  assert (Hstructured : structured req w url uid text report s3)
    by (exists s2; auto).
  destruct (detect_violations_with_gemini report s3) as [[e|violations] s4] eqn:Hdetect.
  { rewrite (run_detect_raises req w url uid text report s3 e s4) by assumption.
    eapply Ends_detect_raised; eauto. }
  assert (Hdetected : detected req w url uid text report violations s4)
    by (exists s3; auto).
  destruct (Py.get report "personal_info" (JObj [])) as [e|info] eqn:Hinfo.
  { rewrite (run_info_raises req w url uid text report violations s4 e) by assumption.
    eapply Ends_info_raised; eauto. }
  destruct (generate_dispute_letter_with_gemini info violations s4)
    as [[e|letter] s5] eqn:Hdraft.
  { rewrite (run_draft_raises req w url uid text report violations s4 info e s5)
      by assumption.
    eapply Ends_draft_raised; eauto. }
  assert (Hdrafted : drafted req w url uid text report violations letter s5)
    by (exists s4, info; auto).
  rewrite (run_drafted _ _ _ _ _ _ _ _ _ Hdrafted).
  now apply Ends_written.
Qed.

(** ** The helper steps, call by call *)

(** What extraction returns and leaves behind, by the replies of the PDF
    reader and of the OCR service. *)
Lemma extract_cases pdf (s s' : @state W) r :
  extract_text_from_pdf_with_vision_ai pdf s = (r, s') ->
  (exists e,
     pdf_reader_pages pdf = inl e /\ r = inl e /\
     s' = (fst s, (snd s ++ [EvPdfReader pdf (inl e)])%list)) \/
  (pdf_reader_pages pdf = inr 0%nat /\
   r = inl (Py.ValueError "PDF has no pages") /\
   s' = (fst s, (snd s ++ [EvPdfReader pdf (inr 0%nat)])%list)) \/
  (exists pages o w',
     pdf_reader_pages pdf = inr pages /\ pages <> 0%nat /\
     document_text_detection pdf (fst s) = (o, w') /\
     s' = (w', (snd s ++ [EvPdfReader pdf (inr pages); EvOcr pdf o])%list) /\
     r = match o with
         | inl e => inl e
         | inr response =>
             if negb (error_message response =? "")
             then inl (Py.Exception ("Vision AI error: " ++ error_message response))
             else inr (match full_text_annotation response with
                       | Some annotation_text => annotation_text
                       | None => ""
                       end)
         end).
Proof.
  unfold extract_text_from_pdf_with_vision_ai.
  rewrite bind_unfold, call_run. cbn [fst snd].
  destruct (pdf_reader_pages pdf) as [e|pages] eqn:Hp.
  - intros [= <- <-]. left. now exists e.
  - destruct (Nat.eqb pages 0) eqn:Hz.
    + apply Nat.eqb_eq in Hz. subst pages.
      intros [= <- <-]. right. left. auto.
    + apply Nat.eqb_neq in Hz.
      rewrite bind_unfold, call_run. cbn [fst snd].
      destruct (document_text_detection pdf (fst s)) as [o w'] eqn:Ho.
      cbn [fst snd]. rewrite <- app_assoc. cbn [app].
      intros H. right. right. exists pages, o, w'.
      repeat split; auto.
      * destruct o as [e|response]; [now inversion H|].
        destruct (negb (error_message response =? ""));
          [|destruct (full_text_annotation response)]; now inversion H.
      * destruct o as [e|response]; [now inversion H|].
        destruct (negb (error_message response =? ""));
          [|destruct (full_text_annotation response)]; now inversion H.
Qed.

Lemma parse_eq t (s : @state W) :
  parse_credit_report_with_gemini t s =
  (match fst (generate_content (parse_prompt t) (fst s)) with
   | inl e => inl e
   | inr g =>
       match text g with
       | inl e => inl e
       | inr reply => json_loads (strip_code_fence reply)
       end
   end,
   (snd (generate_content (parse_prompt t) (fst s)),
    (snd s ++ [EvGenerate (parse_prompt t)
                 (fst (generate_content (parse_prompt t) (fst s)))])%list)).
Proof.
  unfold parse_credit_report_with_gemini.
  rewrite bind_unfold, call_run. cbn [fst snd].
  destruct (fst (generate_content (parse_prompt t) (fst s))) as [e|g];
    [reflexivity|].
  rewrite bind_unfold, lift_run. now destruct (text g).
Qed.

Lemma detect_eq v (s : @state W) :
  let prompt := detect_prompt (json_dumps (Some 2) v) in
  detect_violations_with_gemini v s =
  (match fst (generate_content prompt (fst s)) with
   | inl e => inl e
   | inr g =>
       match text g with
       | inl e => inl e
       | inr reply =>
           match json_loads (strip_code_fence reply) with
           | inl e => inl e
           | inr x =>
               match Py.len x with
               | inl e => inl e
               | inr _ => inr x
               end
           end
       end
   end,
   (snd (generate_content prompt (fst s)),
    (snd s ++ [EvGenerate prompt (fst (generate_content prompt (fst s)))])%list)).
Proof.
  unfold detect_violations_with_gemini. cbv zeta.
  rewrite bind_unfold, call_run. cbn [fst snd].
  destruct (fst (generate_content _ (fst s))) as [e|g]; [reflexivity|].
  rewrite bind_unfold, lift_run. destruct (text g) as [e|reply]; [reflexivity|].
  rewrite bind_unfold, lift_run.
  destruct (json_loads (strip_code_fence reply)) as [e|x]; [reflexivity|].
  rewrite bind_unfold, lift_run. now destruct (Py.len x).
Qed.

Lemma draft_eq info v (s : @state W) :
  let prompt := letter_prompt (json_dumps (Some 2) info) (json_dumps (Some 2) v) in
  generate_dispute_letter_with_gemini info v s =
  (match fst (generate_content prompt (fst s)) with
   | inl e => inl e
   | inr g => text g
   end,
   (snd (generate_content prompt (fst s)),
    (snd s ++ [EvGenerate prompt (fst (generate_content prompt (fst s)))])%list)).
Proof.
  unfold generate_dispute_letter_with_gemini. cbv zeta.
  rewrite bind_unfold, call_run. cbn [fst snd].
  now destruct (fst (generate_content _ (fst s))).
Qed.

(** A helper whose last call raised re-raises that very exception. *)
Lemma extract_last_raised pdf (s s' : @state W) r tr ev e :
  extract_text_from_pdf_with_vision_ai pdf s = (r, s') ->
  snd s' = (tr ++ [ev])%list -> raised ev = Some e -> r = inl e.
Proof.
  intros H Htr Hev.
  destruct (extract_cases _ _ _ _ H)
    as [(e0 & _ & -> & ->) | [(_ & -> & ->) | (pages & o & w' & _ & _ & _ & -> & ->)]];
    cbn [snd] in Htr.
  - apply app_inj_tail in Htr. destruct Htr as [_ <-]. now inversion Hev.
  - apply app_inj_tail in Htr. destruct Htr as [_ <-]. discriminate.
  - change [EvPdfReader pdf (inr pages); EvOcr pdf o]
      with ([EvPdfReader pdf (inr pages)] ++ [EvOcr pdf o])%list in Htr.
    rewrite app_assoc in Htr.
    apply app_inj_tail in Htr. destruct Htr as [_ <-].
    destruct o; [now inversion Hev | discriminate].
Qed.

Lemma parse_last_raised t (s s' : @state W) r tr ev e :
  parse_credit_report_with_gemini t s = (r, s') ->
  snd s' = (tr ++ [ev])%list -> raised ev = Some e -> r = inl e.
Proof.
  rewrite parse_eq. intros [= <- <-] Htr Hev. cbn [snd] in Htr.
  apply app_inj_tail in Htr. destruct Htr as [_ <-].
  destruct (fst (generate_content _ _)); [now inversion Hev | discriminate].
Qed.

Lemma detect_last_raised v (s s' : @state W) r tr ev e :
  detect_violations_with_gemini v s = (r, s') ->
  snd s' = (tr ++ [ev])%list -> raised ev = Some e -> r = inl e.
Proof.
  rewrite detect_eq. intros [= <- <-] Htr Hev. cbn [snd] in Htr.
  apply app_inj_tail in Htr. destruct Htr as [_ <-].
  destruct (fst (generate_content _ _)); [now inversion Hev | discriminate].
Qed.

Lemma draft_last_raised info v (s s' : @state W) r tr ev e :
  generate_dispute_letter_with_gemini info v s = (r, s') ->
  snd s' = (tr ++ [ev])%list -> raised ev = Some e -> r = inl e.
Proof.
  rewrite draft_eq. intros [= <- <-] Htr Hev. cbn [snd] in Htr.
  apply app_inj_tail in Htr. destruct Htr as [_ <-].
  destruct (fst (generate_content _ _)); [now inversion Hev | discriminate].
Qed.

(** ** What each stage has called *)

Lemma begins_snoc url ks tr ev :
  begins_with_fetch url ks tr ->
  begins_with_fetch url (ks ++ [kind_of ev]) (tr ++ [ev]).
Proof.
  intros (r & rest & -> & <-). exists r, (rest ++ [ev])%list.
  split; [reflexivity|]. now rewrite map_app.
Qed.

Lemma extracted_layer req w url uid etext s2 :
  extracted req w url uid etext s2 ->
  exists resp w1 pages ocr,
    fetched req w url uid resp w1 /\
    pdf_reader_pages (content resp) = inr pages /\ pages <> 0%nat /\
    document_text_detection (content resp) w1 = (inr ocr, fst s2) /\
    error_message ocr = "" /\
    full_text_annotation ocr = Some etext /\
    snd s2 = [EvFetch url 30 (inr resp);
              EvPdfReader (content resp) (inr pages);
              EvOcr (content resp) (inr ocr)].
Proof.
  intros (resp & w1 & Hf & Hex & Hne).
  destruct (extract_cases _ _ _ _ Hex)
    as [(e & _ & [=] & _) | [(_ & [=] & _) | (pages & o & w' & Hp & Hz & Ho & -> & Hr)]].
  cbn [fst snd] in *.
  destruct o as [e|ocr]; [discriminate|].
  destruct (error_message ocr =? "") eqn:Hmsg; cbn [negb] in Hr; [|discriminate].
  apply String.eqb_eq in Hmsg.
  exists resp, w1, pages, ocr.
  assert (Hann : full_text_annotation ocr = Some etext).
  { destruct (full_text_annotation ocr) as [a|]; injection Hr as Hr;
      [now rewrite Hr | exfalso; apply Hne; now symmetry]. }
  repeat split; auto; apply Hf.
Qed.

Lemma structured_layer req w url uid etext report s3 :
  structured req w url uid etext report s3 ->
  exists s2 g reply,
    extracted req w url uid etext s2 /\
    generate_content (parse_prompt etext) (fst s2) = (inr g, fst s3) /\
    text g = inr reply /\
    json_loads (strip_code_fence reply) = inr report /\
    snd s3 = (snd s2 ++ [EvGenerate (parse_prompt etext) (inr g)])%list.
Proof.
  intros (s2 & Hex & Hp & _). rewrite parse_eq in Hp.
  destruct (generate_content (parse_prompt etext) (fst s2)) as [[e|g] w'] eqn:Hg;
    cbn [fst snd] in Hp; [discriminate|].
  destruct (text g) as [e|reply] eqn:Ht; [discriminate|].
  injection Hp as Hr <-. exists s2, g, reply. repeat split; auto.
Qed.

Lemma detected_layer req w url uid etext report violations s4 :
  detected req w url uid etext report violations s4 ->
  exists s3 g reply,
    structured req w url uid etext report s3 /\
    generate_content (detect_prompt (json_dumps (Some 2) report)) (fst s3)
      = (inr g, fst s4) /\
    text g = inr reply /\
    json_loads (strip_code_fence reply) = inr violations /\
    sized violations = true /\
    snd s4 = (snd s3 ++ [EvGenerate (detect_prompt (json_dumps (Some 2) report))
                                    (inr g)])%list.
Proof.
  intros (s3 & Hst & Hd). rewrite detect_eq in Hd. cbv zeta in Hd.
  destruct (generate_content _ (fst s3)) as [[e|g] w'] eqn:Hg;
    cbn [fst snd] in Hd; [discriminate|].
  destruct (text g) as [e|reply] eqn:Ht; [discriminate|].
  destruct (json_loads (strip_code_fence reply)) as [e|x] eqn:Hx; [discriminate|].
  destruct (Py.len x) as [e|n] eqn:Hn; [discriminate|].
  injection Hd as <- <-. exists s3, g, reply. repeat split; auto.
  now destruct x.
Qed.

Lemma drafted_layer req w url uid etext report violations letter s5 :
  drafted req w url uid etext report violations letter s5 ->
  exists s4 info g,
    detected req w url uid etext report violations s4 /\
    Py.get report "personal_info" (JObj []) = inr info /\
    generate_content (letter_prompt (json_dumps (Some 2) info)
                                    (json_dumps (Some 2) violations)) (fst s4)
      = (inr g, fst s5) /\
    text g = inr letter /\
    snd s5 = (snd s4 ++ [EvGenerate (letter_prompt (json_dumps (Some 2) info)
                                                   (json_dumps (Some 2) violations))
                                    (inr g)])%list.
Proof.
  intros (s4 & info & Hd & Hi & Hl). rewrite draft_eq in Hl. cbv zeta in Hl.
  destruct (generate_content _ (fst s4)) as [[e|g] w'] eqn:Hg;
    cbn [fst snd] in Hl; [discriminate|].
  injection Hl as Ht <-. exists s4, info, g. repeat split; auto.
Qed.

Lemma extracted_begins req w url uid etext s2 :
  extracted req w url uid etext s2 ->
  begins_with_fetch url [KPdfReader; KOcr] (snd s2).
Proof.
  intros H. destruct (extracted_layer _ _ _ _ _ _ H)
    as (resp & w1 & pages & ocr & _ & _ & _ & _ & _ & _ & ->).
  now do 2 eexists.
Qed.

Lemma structured_begins req w url uid etext report s3 :
  structured req w url uid etext report s3 ->
  begins_with_fetch url [KPdfReader; KOcr; KGenerate] (snd s3).
Proof.
  intros H. destruct (structured_layer _ _ _ _ _ _ _ H)
    as (s2 & g & reply & Hex & _ & _ & _ & ->).
  exact (begins_snoc _ _ _ _ (extracted_begins _ _ _ _ _ _ Hex)).
Qed.

Lemma detected_begins req w url uid etext report violations s4 :
  detected req w url uid etext report violations s4 ->
  begins_with_fetch url [KPdfReader; KOcr; KGenerate; KGenerate] (snd s4).
Proof.
  intros H. destruct (detected_layer _ _ _ _ _ _ _ _ H)
    as (s3 & g & reply & Hst & _ & _ & _ & _ & ->).
  exact (begins_snoc _ _ _ _ (structured_begins _ _ _ _ _ _ _ Hst)).
Qed.

Lemma drafted_begins req w url uid etext report violations letter s5 :
  drafted req w url uid etext report violations letter s5 ->
  begins_with_fetch url [KPdfReader; KOcr; KGenerate; KGenerate; KGenerate] (snd s5).
Proof.
  intros H. destruct (drafted_layer _ _ _ _ _ _ _ _ _ H)
    as (s4 & info & g & Hd & _ & _ & _ & ->).
  exact (begins_snoc _ _ _ _ (detected_begins _ _ _ _ _ _ _ _ Hd)).
Qed.

(** The four shapes of an ending: an escaped exception or a 400 with
    nothing called; a 500 after the fetch and at most five further
    calls, none of them a write; or the write after all six. *)
Lemma ends_shape req w out :
  ends req w out ->
  (exists e, out = (inl e, (w, []))) \/
  out = (inr (error_body "Missing pdf_url or user_id", 400%Z), (w, [])) \/
  (exists url uid message w' tr n,
     accepted req url uid /\
     out = (inr (error_body message, 500%Z), (w', tr)) /\
     (n <= 5)%nat /\
     begins_with_fetch url (firstn n (List.tl pipeline_order)) tr) \/
  (exists url uid etext report violations letter s5 r w',
     drafted req w url uid etext report violations letter s5 /\
     out = (inr (answer_after_insert r report violations),
            (w', (snd s5 ++ [EvInsert "credit_reports_analysis"
                     (analysis_record uid url etext report violations letter
                        (fst (now_isoformat (fst s5)))) r])%list))).
Proof.
  intros H.
  assert (Hfive : forall url uid message (w' : W) (tr : list event) n,
    accepted req url uid -> (n <= 5)%nat ->
    begins_with_fetch url (firstn n (List.tl pipeline_order)) tr ->
    exists url uid message0 w0 tr0 n,
      accepted req url uid /\
      (@inr exn _ (error_body message, 500%Z), (w', tr))
        = (inr (error_body message0, 500%Z), (w0, tr0)) /\
      (n <= 5)%nat /\
      begins_with_fetch url (firstn n (List.tl pipeline_order)) tr0).
  { intros url uid message w' tr n Ha Hn Hb.
    exists url, uid, message, w', tr, n.
    split; [exact Ha|]. split; [reflexivity|]. split; assumption. }
  destruct H.
  - left. eauto.
  - left. eauto.
  - right. left. reflexivity.
  - right. right. left. apply (Hfive pdf_url user_id _ _ _ 0%nat); auto with arith.
    now do 2 eexists.
  - right. right. left. apply (Hfive pdf_url user_id _ _ _ 0%nat); auto with arith.
    now do 2 eexists.
  - right. right. left.
    pose proof H as (Hacc & _).
    destruct (extract_cases _ _ _ _ H0)
      as [(e0 & _ & _ & ->) | [(_ & _ & ->) | (pages & o & w' & _ & _ & _ & -> & _)]].
    + apply (Hfive pdf_url user_id _ _ _ 1%nat); auto with arith. now do 2 eexists.
    + apply (Hfive pdf_url user_id _ _ _ 1%nat); auto with arith. now do 2 eexists.
    + apply (Hfive pdf_url user_id _ _ _ 2%nat); auto with arith. now do 2 eexists.
  - right. right. left.
    pose proof H as (Hacc & _).
    destruct (extract_cases _ _ _ _ H0)
      as [(e0 & _ & [=] & _) | [(_ & [=] & _) | (pages & o & w' & _ & _ & _ & -> & _)]].
    apply (Hfive pdf_url user_id _ _ _ 2%nat); auto with arith. now do 2 eexists.
  - right. right. left.
    pose proof H as (resp & w1 & (Hacc & _) & _).
    pose proof (extracted_begins _ _ _ _ _ _ H) as Hb.
    rewrite parse_eq in H0. injection H0 as _ <-.
    apply (Hfive pdf_url user_id _ _ _ 3%nat); auto with arith.
    exact (begins_snoc _ _ _ _ Hb).
  - right. right. left.
    pose proof H as (resp & w1 & (Hacc & _) & _).
    pose proof (extracted_begins _ _ _ _ _ _ H) as Hb.
    rewrite parse_eq in H0. injection H0 as _ <-.
    apply (Hfive pdf_url user_id _ _ _ 3%nat); auto with arith.
    exact (begins_snoc _ _ _ _ Hb).
  - right. right. left.
    pose proof H as (s2 & (resp & w1 & (Hacc & _) & _) & _).
    pose proof (structured_begins _ _ _ _ _ _ _ H) as Hb.
    rewrite detect_eq in H0. cbv zeta in H0. injection H0 as _ <-.
    apply (Hfive pdf_url user_id _ _ _ 4%nat); auto with arith.
    exact (begins_snoc _ _ _ _ Hb).
  - right. right. left.
    pose proof H as (s3 & (s2 & (resp & w1 & (Hacc & _) & _) & _) & _).
    destruct s4 as [w4 tr4].
    apply (Hfive pdf_url user_id _ _ _ 4%nat); auto with arith.
    exact (detected_begins _ _ _ _ _ _ _ _ H).
  - right. right. left.
    pose proof H as (s3 & (s2 & (resp & w1 & (Hacc & _) & _) & _) & _).
    pose proof (detected_begins _ _ _ _ _ _ _ _ H) as Hb.
    rewrite draft_eq in H1. cbv zeta in H1. injection H1 as _ <-.
    apply (Hfive pdf_url user_id _ _ _ 5%nat); auto with arith.
    exact (begins_snoc _ _ _ _ Hb).
  - right. right. right.
    exists pdf_url, user_id, extracted_text, parsed_credit_report,
      detected_violations, dispute_letter, s5, (fst written), (snd written).
    split; [assumption | reflexivity].
Qed.

(** ** What the handler guarantees on every request *)

Lemma read_field_raises (v : json) (k : string) (e : exn) :
  read_field v k = inl e ->
  exn_class e = "TypeError" /\
  match v with JNull | JObj _ => False | _ => True end.
Proof.
  destruct v as [|b|z|f|s|items|fields];
    [| | | | | |now rewrite read_field_object];
    unfold read_field; cbn [Py.truthy Py.contains Py.getitem].
  - discriminate.
  - destruct b; [|discriminate]. now intros [= <-].
  - destruct (negb (z =? 0)%Z); [|discriminate]. now intros [= <-].
  - destruct (negb (PrimFloat.eqb f PrimFloat.zero)); [|discriminate].
    now intros [= <-].
  - destruct (negb (s =? "")); [|discriminate].
    destruct (String.index 0 k s); [|discriminate]. now intros [= <-].
  - destruct items as [|x items]; [discriminate|].
    destruct (existsb (Py.is_str k) (x :: items)); [|discriminate].
    now intros [= <-].
Qed.

Lemma in_firstn {A : Type} (x : A) (n : nat) (l : list A) :
  In x (firstn n l) -> In x l.
Proof.
  intros H. rewrite <- (firstn_skipn n l). apply in_or_app. now left.
Qed.

(** X1.  When [get_json(silent=True)] returns [None] or a JSON object,
    the request is always answered, with status 200, 400 or 500: the
    field-reading lines do not raise on such a body, and every
    exception deriving from [Exception] that a later step raises is
    turned into the 500 answer. *)
Theorem object_body_is_always_answered req w :
  get_json req = inr JNull \/ (exists fields, get_json req = inr (JObj fields)) ->
  exists body code,
    response_of (run req w) = inr (body, code) /\
    (code = 200 \/ code = 400 \/ code = 500)%Z.
Proof.
  intros Hbody. pose proof (run_ends req w) as H.
  destruct H;
    try (unfold response_of; cbn [fst]; do 2 eexists; split; [reflexivity|]; auto; fail).
  - exfalso. destruct Hbody as [Hb | [fields Hb]]; congruence.
  - exfalso.
    assert (Hbad : exists k, read_field (get_json_silent req) k = inl e).
    { destruct H as [[_ H] | [_ [_ H]]]; eauto. }
    destruct Hbad as [k0 Hbad]. apply read_field_raises in Hbad.
    destruct Hbad as [_ Hbad].
    destruct Hbody as [Hb | [fields Hb]];
      apply get_json_silent_of in Hb; now rewrite Hb in Hbad.
  - unfold response_of, answer_after_insert. cbn [fst].
    destruct (fst written); [do 2 eexists; split; [reflexivity|]; auto|].
    destruct (summary_of parsed_credit_report detected_violations);
      do 2 eexists; (split; [reflexivity|]); auto.
Qed.

(** X2.  An exception deriving from [Exception] can leave the handler
    from two places only, both before any collaborator is called:
    reading the body, when the parser raises something other than a
    [ValueError]; and the field-reading lines, which raise a
    [TypeError] when the body is valid JSON other than an object or
    [null]. *)
Theorem escape_comes_before_any_call req w e :
  response_of (run req w) = inl e ->
  trace_of (run req w) = [] /\
  ((is_json req = true /\ json_loads (get_data req) = inl e /\
    Py.is_value_error e = false) \/
   (exn_class e = "TypeError" /\
    exists v, get_json req = inr v /\
              match v with JNull | JObj _ => False | _ => True end)).
Proof.
  intros Hesc. pose proof (run_ends req w) as H.
  destruct H; unfold response_of in Hesc; cbn [fst] in Hesc; try discriminate.
  - injection Hesc as ->. split; [reflexivity|]. left.
    unfold get_json in H. destruct (is_json req); [|discriminate].
    destruct (json_loads (get_data req)) as [e0|v]; [|discriminate].
    destruct (Py.is_value_error e0) eqn:He0; [discriminate|].
    injection H as <-. auto.
  - injection Hesc as ->. split; [reflexivity|]. right.
    assert (Hbad : exists k, read_field (get_json_silent req) k = inl e).
    { destruct H as [[_ H] | [_ [_ H]]]; eauto. }
    destruct Hbad as [k0 Hbad].
    pose proof (read_field_returned _ _ _ Hbad) as Hret.
    destruct (read_field_raises _ _ _ Hbad) as [Hclass Hshape].
    split; [exact Hclass|]. exists (get_json_silent req). split; [|exact Hshape].
    apply Hret. discriminate.
Qed.

(** X3.  The three answers.  A 400 always carries the fixed message and
    is given before any call; a 500 always carries the error envelope
    and is given after the fetch was attempted; a 200 always carries
    the success payload and is given after all seven calls. *)
Theorem answer_shapes req w body code :
  response_of (run req w) = inr (body, code) ->
  (code = 400%Z /\ body = error_body "Missing pdf_url or user_id" /\
   trace_of (run req w) = []) \/
  (code = 500%Z /\ (exists message, body = error_body message) /\
   exists url r rest, trace_of (run req w) = EvFetch url 30 r :: rest) \/
  (code = 200%Z /\ (exists data counts, body = success_body data counts) /\
   map kind_of (trace_of (run req w)) = pipeline_order).
Proof.
  intros Hans.
  destruct (ends_shape _ _ _ (run_ends req w))
    as [(e & Hout) | [Hout | [(url & uid & message & w' & tr & n & _ & Hout & _ & Hb)
       | (url & uid & etext & report & violations & letter & s5 & r & w' & Hd & Hout)]]];
    rewrite Hout in Hans |- *; unfold response_of, trace_of in *; cbn [fst snd] in *.
  - discriminate.
  - injection Hans as <- <-. now left.
  - injection Hans as <- <-. right. left.
    destruct Hb as (r & rest & -> & _).
    split; [reflexivity|]. split; [now eexists | now do 3 eexists].
  - destruct (drafted_begins _ _ _ _ _ _ _ _ _ Hd) as (r0 & rest & Htr & Hk).
    rewrite Htr. unfold answer_after_insert in Hans. cbn [app].
    destruct r as [e|data].
    { injection Hans as <- <-. right. left.
      split; [reflexivity|]. split; [now eexists | now do 3 eexists]. }
    destruct (summary_of report violations) as [e|counts].
    { injection Hans as <- <-. right. left.
      split; [reflexivity|]. split; [now eexists | now do 3 eexists]. }
    injection Hans as <- <-. right. right.
    split; [reflexivity|]. split; [now do 2 eexists|].
    cbn [map]. rewrite map_app, Hk. reflexivity.
Qed.

(** X4.  Whatever happens, the calls are made in the order fetch, PDF
    reader, OCR, three model calls, datastore write, without gaps or
    repeats: the kinds of the calls made are an initial part of that
    sequence. *)
Theorem calls_follow_the_pipeline_order req w :
  exists n, map kind_of (trace_of (run req w)) = firstn n pipeline_order.
Proof.
  destruct (ends_shape _ _ _ (run_ends req w))
    as [(e & Hout) | [Hout | [(url & uid & message & w' & tr & n & _ & Hout & _ & Hb)
       | (url & uid & etext & report & violations & letter & s5 & r & w' & Hd & Hout)]]];
    rewrite Hout; unfold trace_of; cbn [fst snd].
  - now exists 0%nat.
  - now exists 0%nat.
  - destruct Hb as (r & rest & -> & Hk). exists (S n).
    cbn [map]. now rewrite Hk.
  - destruct (drafted_begins _ _ _ _ _ _ _ _ _ Hd) as (r0 & rest & -> & Hk).
    exists 7%nat. cbn [map app]. rewrite map_app, Hk. reflexivity.
Qed.

(** X5.  The only document ever fetched is the request's own
    [pdf_url], a truthy value, with the 30-second timeout. *)
Theorem fetch_targets_the_request_url req w target timeout r :
  In (EvFetch target timeout r) (trace_of (run req w)) ->
  timeout = 30%Z /\
  read_field (get_json_silent req) "pdf_url" = inr target /\
  Py.truthy target = true.
Proof.
  intros Hin.
  assert (Hhead : forall url uid rest ks,
    accepted req url uid ->
    In (EvFetch target timeout r) rest -> map kind_of rest = ks ->
    ~ In KFetch ks -> False).
  { intros url uid rest ks _ Hrest <- Hno. apply Hno.
    exact (in_map kind_of _ _ Hrest). }
  destruct (ends_shape _ _ _ (run_ends req w))
    as [(e & Hout) | [Hout | [(url & uid & message & w' & tr & n & Hacc & Hout & _ & Hb)
       | (url & uid & etext & report & violations & letter & s5 & r0 & w' & Hd & Hout)]]];
    rewrite Hout in Hin; unfold trace_of in Hin; cbn [fst snd] in Hin.
  - contradiction.
  - contradiction.
  - destruct Hb as (r1 & rest & -> & Hk). destruct Hin as [Heq | Hrest].
    + injection Heq as <- <- _. destruct Hacc as (Hu & _ & Ht & _). auto.
    + exfalso. apply (Hhead url uid rest _ Hacc Hrest Hk).
      intros Hf. apply in_firstn in Hf. cbn in Hf.
      repeat destruct Hf as [Hf | Hf]; try discriminate; contradiction.
  - pose proof Hd as (s4 & info & (s3 & (s2 & (resp & w1 & (Hacc & _) & _) & _) & _) & _).
    destruct (drafted_begins _ _ _ _ _ _ _ _ _ Hd) as (r1 & rest & Htr & Hk).
    rewrite Htr in Hin. cbn [app] in Hin. destruct Hin as [Heq | Hrest].
    + injection Heq as <- <- _. destruct Hacc as (Hu & _ & Ht & _). auto.
    + exfalso. apply in_app_or in Hrest. destruct Hrest as [Hrest | [Heq | []]];
        [|discriminate].
      apply (Hhead url uid rest _ Hacc Hrest Hk).
      cbn. intros Hf.
      repeat destruct Hf as [Hf | Hf]; try discriminate; contradiction.
Qed.

(** X6.  When the last call made raised an exception deriving from
    [Exception], the answer is HTTP 500 with the serialised object of
    status [error] whose message is [str] of that exception: a
    collaborator's failure reaches the caller verbatim. *)
Theorem last_call_exception_is_the_message req w tr ev e :
  trace_of (run req w) = (tr ++ [ev])%list ->
  raised ev = Some e ->
  response_of (run req w) =
  inr (json_dumps None (JObj [("status", JStr "error");
                              ("message", JStr (exn_str e))]),
       500%Z).
Proof.
  intros Htr Hev. change (json_dumps None _) with (error_body (exn_str e)).
  pose proof (run_ends req w) as H.
  destruct H; unfold trace_of, response_of in *; cbn [fst snd] in *.
  - now destruct tr.
  - now destruct tr.
  - now destruct tr.
  - change [EvFetch pdf_url 30 (inl e0)] with ([] ++ [EvFetch pdf_url 30 (inl e0)])%list in Htr.
    apply app_inj_tail in Htr. destruct Htr as [_ <-]. now injection Hev as <-.
  - change [EvFetch pdf_url 30 (inr pdf_response)]
      with ([] ++ [EvFetch pdf_url 30 (inr pdf_response)])%list in Htr.
    apply app_inj_tail in Htr. destruct Htr as [_ <-]. discriminate.
  - pose proof (extract_last_raised _ _ _ _ _ _ _ H0 Htr Hev) as Heq.
    now injection Heq as <-.
  - pose proof (extract_last_raised _ _ _ _ _ _ _ H0 Htr Hev). discriminate.
  - pose proof (parse_last_raised _ _ _ _ _ _ _ H0 Htr Hev) as Heq.
    now injection Heq as <-.
  - pose proof (parse_last_raised _ _ _ _ _ _ _ H0 Htr Hev). discriminate.
  - pose proof (detect_last_raised _ _ _ _ _ _ _ H0 Htr Hev) as Heq.
    now injection Heq as <-.
  - destruct H as (s3 & _ & Hd).
    pose proof (detect_last_raised _ _ _ _ _ _ _ Hd Htr Hev). discriminate.
  - pose proof (draft_last_raised _ _ _ _ _ _ _ _ H1 Htr Hev) as Heq.
    now injection Heq as <-.
  - apply app_inj_tail in Htr. destruct Htr as [_ <-].
    unfold answer_after_insert.
    destruct (fst written) as [e0|data]; [now injection Hev as <- | discriminate].
Qed.

(** X7.  The success answer is computed after the write.  If the
    report's [accounts] entry is a value without a length (a number,
    say), the record is stored and the caller is nevertheless answered
    500 with Python's [len] error. *)
Theorem stored_yet_answered_500 req w url uid etext fields violations letter s5 v data :
  let report := JObj fields in
  let stamp := now_isoformat (fst s5) in
  let record := analysis_record uid url etext report violations letter (fst stamp) in
  let written := table_insert "credit_reports_analysis" record (snd stamp) in
  drafted req w url uid etext report violations letter s5 ->
  Py.lookup "accounts" fields = Some v -> sized v = false ->
  fst written = inr data ->
  response_of (run req w)
  = inr (error_body ("object of type '" ++ Py.type_name v ++ "' has no len()"),
         500%Z) /\
  In (EvInsert "credit_reports_analysis" record (inr data)) (trace_of (run req w)).
Proof.
  intros report stamp record written Hd Hacc Hv Hw.
  pose proof (run_drafted _ _ _ _ _ _ _ _ _ Hd) as Hrun. cbv zeta in Hrun.
  fold stamp record written in Hrun. rewrite Hrun.
  unfold response_of, trace_of. cbn [fst snd]. rewrite Hw. split.
  - unfold answer_after_insert, summary_of.
    destruct (drafted_layer _ _ _ _ _ _ _ _ _ Hd) as (s4 & info & g & Hdet & _).
    destruct (detected_layer _ _ _ _ _ _ _ _ Hdet) as (_ & _ & _ & _ & _ & _ & _ & Hs & _).
    assert (Hlen : exists n, Py.len violations = inr n)
      by (destruct violations; try discriminate; cbn; eauto).
    destruct Hlen as [n ->]. unfold report. cbn [Py.get]. rewrite Hacc.
    now destruct v.
  - apply in_or_app. right. now left.
Qed.

(** X8.  A structured report that is truthy but not a JSON object (a
    list, a string, a number) is still sent to detection; the handler
    then fails on [.get] with an [AttributeError] message, answers 500,
    and neither requests the letter nor writes anything. *)
Theorem non_object_report_stops_after_detection
  req w url uid etext report s3 violations s4 :
  structured req w url uid etext report s3 ->
  match report with JObj _ => False | _ => True end ->
  detect_violations_with_gemini report s3 = (inr violations, s4) ->
  run req w =
  (inr (error_body ("'" ++ Py.type_name report ++ "' object has no attribute 'get'"),
        500%Z), s4).
Proof.
  intros Hst Hshape Hdet.
  assert (Hd : detected req w url uid etext report violations s4)
    by (exists s3; auto).
  rewrite (run_info_raises _ _ _ _ _ _ _ _
             (Py.AttributeError ("'" ++ Py.type_name report
                                     ++ "' object has no attribute 'get'")) Hd).
  - reflexivity.
  - now destruct report.
Qed.

(** X10.  A 200 answer means exactly seven calls were made, each fed by
    the one before: the fetched bytes go to the PDF reader and to OCR,
    the OCR text into the structuring prompt, the parsed report into
    the detection prompt, the report's [personal_info] (or an empty
    object) and the violations into the letter prompt, and all of it
    into the single record written. *)
Theorem success_is_seven_chained_calls req w body :
  response_of (run req w) = inr (body, 200%Z) ->
  exists url uid resp pages ocr etext g1 reply1 report g2 reply2 violations
         info g3 letter stamp data,
    trace_of (run req w) =
      [EvFetch url 30 (inr resp);
       EvPdfReader (content resp) (inr pages);
       EvOcr (content resp) (inr ocr);
       EvGenerate (parse_prompt etext) (inr g1);
       EvGenerate (detect_prompt (json_dumps (Some 2) report)) (inr g2);
       EvGenerate (letter_prompt (json_dumps (Some 2) info)
                                 (json_dumps (Some 2) violations)) (inr g3);
       EvInsert "credit_reports_analysis"
         (analysis_record uid url etext report violations letter stamp)
         (inr data)] /\
    full_text_annotation ocr = Some etext /\
    text g1 = inr reply1 /\ json_loads (strip_code_fence reply1) = inr report /\
    text g2 = inr reply2 /\ json_loads (strip_code_fence reply2) = inr violations /\
    Py.get report "personal_info" (JObj []) = inr info /\
    text g3 = inr letter.
Proof.
  intros Hok.
  destruct (run_dichotomy req w)
    as [[_ Hno] | (url & uid & etext & report & violations & letter & s5 & Hd & _)].
  { exfalso. exact (Hno body Hok). }
  pose proof (run_drafted _ _ _ _ _ _ _ _ _ Hd) as Hrun. cbv zeta in Hrun.
  rewrite Hrun in Hok |- *. unfold trace_of, response_of in *. cbn [fst snd] in *.
  unfold answer_after_insert in Hok.
  destruct (fst (table_insert _ _ _)) as [e|data]; [discriminate|].
  destruct (drafted_layer _ _ _ _ _ _ _ _ _ Hd)
    as (s4 & info & g3 & Hdet & Hinfo & _ & Ht3 & ->).
  destruct (detected_layer _ _ _ _ _ _ _ _ Hdet)
    as (s3 & g2 & reply2 & Hst & _ & Ht2 & Hl2 & _ & ->).
  destruct (structured_layer _ _ _ _ _ _ _ Hst)
    as (s2 & g1 & reply1 & Hex & _ & Ht1 & Hl1 & ->).
  destruct (extracted_layer _ _ _ _ _ _ Hex)
    as (resp & w1 & pages & ocr & _ & _ & _ & _ & _ & Hann & ->).
  exists url, uid, resp, pages, ocr, etext, g1, reply1, report, g2, reply2,
    violations, info, g3, letter.
  do 2 eexists. split; [reflexivity|]. repeat split; assumption.
Qed.

(** ** The helper steps *)

(** X11.  A PDF without pages is refused before OCR: extraction raises
    [ValueError("PDF has no pages")], the OCR service is not called and
    the world is left as it was. *)
Theorem zero_pages_skips_ocr pdf (s : @state W) :
  pdf_reader_pages pdf = inr 0%nat ->
  extract_text_from_pdf_with_vision_ai pdf s =
  (inl (Py.ValueError "PDF has no pages"),
   (fst s, (snd s ++ [EvPdfReader pdf (inr 0%nat)])%list)).
Proof.
  intros Hp. unfold extract_text_from_pdf_with_vision_ai.
  rewrite bind_unfold, call_run. cbn [fst snd]. now rewrite Hp.
Qed.

(** X12.  Extraction returns text exactly when the reader found at
    least one page and OCR answered without an error message; the text
    is the annotation's, or the empty string when there is none, and
    the reader and OCR were each called once on the same bytes. *)
Theorem extract_returns_text_iff pdf (s s' : @state W) (t : string) :
  extract_text_from_pdf_with_vision_ai pdf s = (inr t, s') <->
  exists pages response,
    pdf_reader_pages pdf = inr pages /\ pages <> 0%nat /\
    document_text_detection pdf (fst s) = (inr response, fst s') /\
    error_message response = "" /\
    t = match full_text_annotation response with
        | Some annotation_text => annotation_text
        | None => ""
        end /\
    snd s' = (snd s ++ [EvPdfReader pdf (inr pages);
                        EvOcr pdf (inr response)])%list.
Proof.
  split.
  - intros H.
    destruct (extract_cases _ _ _ _ H)
      as [(e & _ & [=] & _) | [(_ & [=] & _) | (pages & o & w' & Hp & Hz & Ho & -> & Hr)]].
    destruct o as [e|response]; [discriminate|].
    destruct (error_message response =? "") eqn:Hmsg; cbn [negb] in Hr;
      [|discriminate].
    apply String.eqb_eq in Hmsg. injection Hr as ->.
    exists pages, response. repeat split; auto.
  - intros (pages & response & Hp & Hz & Ho & Hmsg & -> & Htr).
    unfold extract_text_from_pdf_with_vision_ai.
    rewrite bind_unfold, call_run. cbn [fst snd]. rewrite Hp.
    apply Nat.eqb_neq in Hz. rewrite Hz.
    rewrite bind_unfold, call_run. cbn [fst snd]. rewrite Ho. cbn [fst snd].
    rewrite Hmsg. cbn [String.eqb negb].
    rewrite <- app_assoc. cbn [app]. rewrite <- Htr.
    destruct s' as [w' tr']. cbn [fst snd].
    now destruct (full_text_annotation response).
Qed.

(** X13.  A detection reply that is valid JSON but has no length
    ([null], a number, [true]) is refused: building the log line calls
    [len] on it, and detection raises that [TypeError]. *)
Theorem detect_rejects_unsized_reply v (s : @state W) g w' reply x :
  generate_content (detect_prompt (json_dumps (Some 2) v)) (fst s) = (inr g, w') ->
  text g = inr reply ->
  json_loads (strip_code_fence reply) = inr x ->
  sized x = false ->
  detect_violations_with_gemini v s =
  (inl (Py.TypeError ("object of type '" ++ Py.type_name x ++ "' has no len()")),
   (w', (snd s ++ [EvGenerate (detect_prompt (json_dumps (Some 2) v)) (inr g)])%list)).
Proof.
  intros Hg Ht Hx Hs. rewrite detect_eq. cbv zeta.
  rewrite Hg. cbn [fst snd]. rewrite Ht, Hx.
  now destruct x.
Qed.

(** X14.  Detection returns a value exactly when the model answered
    with text that parses, after fence stripping, to a string, a list
    or an object; that value is returned unchanged, and nothing checks
    that it is a list of violations. *)
Theorem detect_returns_iff v (s s' : @state W) (x : json) :
  detect_violations_with_gemini v s = (inr x, s') <->
  exists g reply,
    generate_content (detect_prompt (json_dumps (Some 2) v)) (fst s)
      = (inr g, fst s') /\
    text g = inr reply /\
    json_loads (strip_code_fence reply) = inr x /\
    sized x = true /\
    snd s' = (snd s ++ [EvGenerate (detect_prompt (json_dumps (Some 2) v))
                                   (inr g)])%list.
Proof.
  rewrite detect_eq. cbv zeta. split.
  - destruct (generate_content _ (fst s)) as [[e|g] w'] eqn:Hg;
      cbn [fst snd]; [discriminate|].
    destruct (text g) as [e|reply] eqn:Ht; [discriminate|].
    destruct (json_loads (strip_code_fence reply)) as [e|y] eqn:Hy; [discriminate|].
    destruct (Py.len y) as [e|n] eqn:Hn; [discriminate|].
    intros [= <- <-]. exists g, reply. repeat split; auto.
    now destruct y.
  - intros (g & reply & Hg & Ht & Hx & Hs & Htr).
    rewrite Hg. cbn [fst snd]. rewrite Ht, Hx, <- Htr.
    destruct s' as [w' tr']. cbn [fst snd].
    now destruct x.
Qed.

(** X25.  An error message in the OCR reply wins over any text in it:
    extraction raises [Exception("Vision AI error: ...")] even when the
    reply also carries a full-text annotation. *)
Theorem ocr_error_beats_text pdf (s : @state W) pages response w' :
  pdf_reader_pages pdf = inr pages -> pages <> 0%nat ->
  document_text_detection pdf (fst s) = (inr response, w') ->
  error_message response <> "" ->
  extract_text_from_pdf_with_vision_ai pdf s =
  (inl (Py.Exception ("Vision AI error: " ++ error_message response)),
   (w', (snd s ++ [EvPdfReader pdf (inr pages); EvOcr pdf (inr response)])%list)).
Proof.
  intros Hp Hn Hocr Hmsg. unfold extract_text_from_pdf_with_vision_ai.
  rewrite bind_unfold, call_run. cbn [fst snd]. rewrite Hp.
  apply Nat.eqb_neq in Hn. rewrite Hn.
  rewrite bind_unfold, call_run. cbn [fst snd]. rewrite Hocr. cbn [fst snd].
  apply String.eqb_neq in Hmsg. rewrite Hmsg. cbn [negb].
  now rewrite <- app_assoc.
Qed.

(** X26.  For a JSON-object body the answer is the 400 exactly when
    [pdf_url] or [user_id] is absent or falsy (empty string, [null],
    zero, [false], empty list or object); the keys' values are not
    required to be strings. *)
Theorem object_body_400_iff req w fields :
  get_json_silent req = JObj fields ->
  (response_of (run req w)
   = inr (error_body "Missing pdf_url or user_id", 400%Z) <->
   (match Py.lookup "pdf_url" fields with
    | Some v => Py.truthy v = false | None => True end) \/
   (match Py.lookup "user_id" fields with
    | Some v => Py.truthy v = false | None => True end)).
Proof.
  intros Hbody. split.
  - intros Hans.
    assert (Hfield : forall k v,
      read_field (get_json_silent req) k = inr v -> Py.truthy v = false ->
      match Py.lookup k fields with
      | Some x => Py.truthy x = false | None => True end).
    { intros k v Hk Hv. rewrite Hbody, read_field_object in Hk.
      destruct (Py.lookup k fields); [now injection Hk as -> | exact I]. }
    pose proof (run_ends req w) as H.
    destruct H; unfold response_of in Hans; cbn [fst] in Hans; try discriminate.
    + destruct H2 as [Hf | Hf]; [left | right]; eapply Hfield; eassumption.
    + unfold answer_after_insert in Hans. destruct (fst written); [discriminate|].
      destruct (summary_of parsed_credit_report detected_violations); discriminate.
  - intros Hmiss. now rewrite (run_object_missing_field req w fields).
Qed.

End PipelineFacts.

(** ** Fence round trip *)

(** C3 (amended).  For every string that is not itself fence-shaped,
    wrapping it in a [```json] fence or in a plain [```] fence and
    stripping gives the same string, hence the same parse, as stripping
    it unwrapped; and stripping such a string twice is the same as
    stripping it once. *)
Theorem fence_round_trip {J : JsonLib} (s : string) :
  fenced s = false ->
  strip_code_fence (wrap_json s) = strip_code_fence s /\
  strip_code_fence (wrap_plain s) = strip_code_fence s /\
  json_loads (strip_code_fence (wrap_json s)) = json_loads (strip_code_fence s) /\
  json_loads (strip_code_fence (wrap_plain s)) = json_loads (strip_code_fence s) /\
  strip_code_fence (strip_code_fence s) = strip_code_fence s.
Proof.
  intros H.
  pose proof (FenceFacts.strip_code_fence_unfenced s H) as Hs.
  pose proof (FenceFacts.strip_code_fence_wrap_json s) as Hj.
  pose proof (FenceFacts.strip_code_fence_wrap_plain s) as Hp.
  rewrite Hj, Hp, Hs. repeat split.
  rewrite FenceFacts.strip_code_fence_unfenced.
  - apply PyStrFacts.strip_idem.
  - now rewrite FenceFacts.fenced_strip.
Qed.

(** ** The program on the sample scenario *)

Module SampleRuns.
Import Sample.

Ltac by_running := repeat first [reflexivity | discriminate | split | eexists].

Lemma fence_round_trip_witness :
  fenced (dumps report) = false /\
  @json_loads sample_json (strip_code_fence (wrap_json (dumps report)))
  = inr report.
Proof.
  split; [reflexivity|].
  destruct (@fence_round_trip sample_json (dumps report) eq_refl)
    as (_ & _ & -> & _).
  reflexivity.
Defined.

(** A reply that is itself fenced: unwrapped it parses to the empty
    list, wrapped once more it is no longer JSON. *)
Lemma nested_fence_breaks_round_trip :
  fenced "```[]```" = true /\
  strip_code_fence "```[]```" = "[]" /\
  strip_code_fence (wrap_json "```[]```") = "```[]```" /\
  @json_loads sample_json (strip_code_fence "```[]```") = inr (JArr []) /\
  @json_loads sample_json (strip_code_fence (wrap_json "```[]```"))
  = inl JSONDecodeError.
Proof. repeat split. Qed.

Lemma non_object_body_escapes_witness :
  @get_json_silent sample_json (post (JInt 5)) = JInt 5 /\
  5%Z <> 0%Z /\
  serve happy (post (JInt 5)) =
  (inl (Py.TypeError "argument of type 'int' is not iterable"),
   (model_replies happy, [])).
Proof.
  split; [reflexivity|]. split; [discriminate|].
  apply (non_object_body_escapes (C := scripted happy) (post (JInt 5)) _ 5);
    [reflexivity | discriminate].
Defined.

(** The payload of [test_local.py] without its [user_id]. *)
Lemma missing_user_is_400 :
  serve happy (post payload_without_user)
  = (inr (@error_body sample_json "Missing pdf_url or user_id", 400%Z),
     (model_replies happy, [])).
Proof.
  apply (run_object_missing_field (C := scripted happy)
           (post payload_without_user) _
           [("pdf_url", JStr "https://example.com/test-credit-report.pdf")]);
    [reflexivity | now right].
Qed.

Lemma malformed_body_is_400_witness :
  @json_loads sample_json "{pdf_url" = inl JSONDecodeError /\
  Py.is_value_error JSONDecodeError = true /\
  serve happy (Request true "{pdf_url")
  = (inr (dumps (JObj [("status", JStr "error");
                       ("message", JStr "Missing pdf_url or user_id")]),
          400%Z),
     (model_replies happy, [])).
Proof.
  split; [reflexivity|]. split; [reflexivity|]. unfold serve.
  apply (malformed_body_is_400 (J := sample_json) (P := sample_prompts)
           (C := scripted happy) (Request true "{pdf_url")).
  right; right. exists JSONDecodeError. split; reflexivity.
Defined.

(** A body that is not valid JSON and is nevertheless not answered
    400: the parser fails on the 100000 nested brackets with a
    [RecursionError], which is not a [ValueError], so
    [get_json(silent=True)] does not silence it and it leaves the
    handler from line 288, outside the [try] block. *)
Lemma deeply_nested_body_escapes :
  is_json (Request true deep_body) = true /\
  @json_loads deep_json (get_data (Request true deep_body)) = inl RecursionError /\
  Py.is_value_error RecursionError = false /\
  serve_deep happy (Request true deep_body)
  = (inl RecursionError, (model_replies happy, [])) /\
  status_of (serve_deep happy (Request true deep_body)) <> Some 400%Z.
Proof.
  assert (Hloads : @json_loads deep_json deep_body = inl RecursionError)
    by (vm_compute; reflexivity).
  assert (Hrun : serve_deep happy (Request true deep_body)
                 = (inl RecursionError, (model_replies happy, []))).
  { unfold serve_deep. apply run_body_raises.
    unfold get_json. cbn [is_json get_data]. now rewrite Hloads. }
  split; [reflexivity|]. split; [exact Hloads|]. split; [reflexivity|].
  split; [exact Hrun|]. rewrite Hrun. discriminate.
Qed.

Lemma fetch_failure_aborts_witness :
  @accepted sample_json good_request url user /\
  fetch_failed (ok_fetch 404 "Not Found") /\
  status_of (serve not_found good_request) = Some 500%Z /\
  trace_of (serve not_found good_request)
  = [EvFetch url 30 (ok_fetch 404 "Not Found")].
Proof.
  split; [by_running|]. split; [cbn; lia|]. unfold serve.
  destruct (fetch_failure_aborts (C := scripted not_found) good_request
              (model_replies not_found) url user (ok_fetch 404 "Not Found")
              (model_replies not_found))
    as [message ->]; [by_running | reflexivity | cbn; lia | by_running].
Defined.

(** A 300 is neither a 2xx status nor an error for [raise_for_status]:
    the body is processed and stored, and the answer is 200. *)
Lemma multiple_choices_is_processed :
  fetch_reply multiple_choices = ok_fetch 300 "Multiple Choices" /\
  status_of (serve multiple_choices good_request) = Some 200%Z /\
  List.length (trace_of (serve multiple_choices good_request)) = 7%nat /\
  existsb is_insert (trace_of (serve multiple_choices good_request)) = true.
Proof. repeat split. Qed.

Lemma extraction_failure_aborts_witness :
  @fetched _ sample_json (scripted blank_scan) good_request
           (model_replies blank_scan) url user document
           (model_replies blank_scan) /\
  @extract_text_from_pdf_with_vision_ai _ (scripted blank_scan) pdf_bytes
     (after_fetch blank_scan) = (inr "", after_extract blank_scan) /\
  status_of (serve blank_scan good_request) = Some 500%Z /\
  quiet is_generate (trace_of (serve blank_scan good_request)).
Proof.
  split; [by_running|]. split; [reflexivity|].
  destruct (extraction_failure_aborts (P := sample_prompts) (C := scripted blank_scan)
              good_request (model_replies blank_scan) url user document
              (model_replies blank_scan) (inr "") (after_extract blank_scan))
    as ([message Hrun] & Hquiet & _); [by_running | reflexivity | now left |].
  split; [|exact Hquiet].
  unfold serve. now rewrite Hrun.
Defined.

Lemma unusable_structure_aborts_witness :
  @extracted _ sample_json (scripted empty_object_reply) good_request
             (model_replies empty_object_reply) url user ocr_text
             (after_extract empty_object_reply) /\
  @json_loads sample_json (strip_code_fence "{}") = inr (JObj []) /\
  Py.truthy (JObj []) = false /\
  status_of (serve empty_object_reply good_request) = Some 500%Z /\
  List.length (trace_of (serve empty_object_reply good_request)) = 4%nat.
Proof.
  split; [by_running|]. split; [reflexivity|]. split; [reflexivity|].
  destruct (unusable_structure_aborts (P := sample_prompts)
              (C := scripted empty_object_reply)
              good_request (model_replies empty_object_reply) url user ocr_text
              (after_extract empty_object_reply) (GenResponse (inr "{}")) [] "{}")
    as [message Hrun];
    [by_running | reflexivity | reflexivity | right; right; by_running |].
  unfold serve. now rewrite Hrun.
Defined.

Lemma empty_violations_continue_witness :
  @structured _ sample_json sample_prompts (scripted no_violations) good_request
              (model_replies no_violations) url user ocr_text report
              (after_parse no_violations) /\
  @json_loads sample_json (strip_code_fence "[]") = inr (JArr []) /\
  exists data,
    response_of (serve no_violations good_request)
    = inr (dumps (JObj [("status", JStr "success");
                        ("message", JStr "Credit report processed successfully");
                        ("data", data);
                        ("summary",
                         JObj [("violations_found", JInt 0);
                               ("accounts_analyzed", JInt 1);
                               ("inquiries_found", JInt 0)])]),
           200%Z).
Proof.
  split; [by_running|]. split; [reflexivity|].
  destruct (empty_violations_continue (P := sample_prompts) (C := scripted no_violations)
              good_request (model_replies no_violations) url user ocr_text
              [("personal_info", JObj [("name", JStr "JOHN DOE")]);
               ("accounts", JArr [JObj [("creditor_name", JStr "CHASE BANK")]]);
               ("inquiries", JArr [])]
              (after_parse no_violations) (GenResponse (inr "[]"))
              [says "Dear Bureau..."] "[]")
    as (_ & _ & Hrest); [by_running | reflexivity | reflexivity | reflexivity |].
  destruct (Hrest "Dear Bureau..." (after_draft no_violations (JArr [])) eq_refl)
    as (_ & Hok).
  eexists. unfold serve. apply Hok; reflexivity.
Defined.

(** Detection returning the empty list does not by itself lead to a
    200.  Where the structuring reply was the bare number 5, detection
    still answers [[]] and the handler then fails on [.get]: 500, no
    letter requested, nothing written.  Where the report is the sample
    object and detection answers [[]], a letter call that raises, or a
    write that raises, ends the run with 500 as well. *)
Lemma empty_violations_may_end_in_500 :
  (fst (@detect_violations_with_gemini _ sample_json sample_prompts
          (scripted number_report) (JInt 5) (after_parse number_report))
   = inr (JArr []) /\
   status_of (serve number_report good_request) = Some 500%Z /\
   map kind_of (trace_of (serve number_report good_request))
   = [KFetch; KPdfReader; KOcr; KGenerate; KGenerate]) /\
  (fst (@detect_violations_with_gemini _ sample_json sample_prompts
          (scripted no_violations_letter_refused) report
          (after_parse no_violations_letter_refused))
   = inr (JArr []) /\
   status_of (serve no_violations_letter_refused good_request) = Some 500%Z /\
   existsb is_insert (trace_of (serve no_violations_letter_refused good_request))
   = false) /\
  (fst (@detect_violations_with_gemini _ sample_json sample_prompts
          (scripted no_violations_datastore_down) report
          (after_parse no_violations_datastore_down))
   = inr (JArr []) /\
   status_of (serve no_violations_datastore_down good_request) = Some 500%Z).
Proof. repeat split. Qed.

Lemma draft_failure_is_500_witness :
  @detected _ sample_json sample_prompts (scripted letter_refused) good_request
            (model_replies letter_refused) url user ocr_text report one_violation
            (after_detect letter_refused) /\
  Py.get report "personal_info" (JObj []) = inr personal_info /\
  response_of (serve letter_refused good_request)
  = inr (@error_body sample_json "429 Quota exceeded", 500%Z) /\
  quiet is_insert (trace_of (serve letter_refused good_request)).
Proof.
  split; [by_running|]. split; [reflexivity|].
  destruct (draft_failure_is_500 (P := sample_prompts) (C := scripted letter_refused)
              good_request (model_replies letter_refused) url user ocr_text report
              one_violation (after_detect letter_refused) personal_info)
    as (Hfail & _); [by_running | reflexivity |].
  destruct (Hfail quota_exhausted (after_draft letter_refused one_violation) eq_refl)
    as (Hrun & Hquiet).
  unfold serve. rewrite Hrun. split; [reflexivity | exact Hquiet].
Defined.

(** The model answers the letter request with empty text: the empty
    letter is stored and the answer is 200. *)
Lemma empty_letter_is_stored :
  nth_error (model_replies empty_letter) 2 = Some (says "") /\
  status_of (serve empty_letter good_request) = Some 200%Z /\
  exists stamp r,
    In (EvInsert "credit_reports_analysis"
          (analysis_record user url ocr_text report one_violation "" stamp) r)
       (trace_of (serve empty_letter good_request)).
Proof.
  split; [reflexivity|]. split; [reflexivity|].
  do 2 eexists. cbn. do 6 right. left. reflexivity.
Qed.


Lemma summary_counts_witness :
  response_of (serve happy good_request)
  = inr (dumps (JObj [("status", JStr "success");
                      ("message", JStr "Credit report processed successfully");
                      ("data", JArr [analysis_record user url ocr_text report
                                       one_violation "Dear Bureau..."
                                       "2024-01-01T00:00:00"]);
                      ("summary",
                       JObj [("violations_found", JInt 1);
                             ("accounts_analyzed", JInt 1);
                             ("inquiries_found", JInt 0)])]), 200%Z) /\
  exists data nv na ni,
    response_of (serve happy good_request)
    = inr (dumps (JObj [("status", JStr "success");
                        ("message", JStr "Credit report processed successfully");
                        ("data", data);
                        ("summary",
                         JObj [("violations_found", JInt nv);
                               ("accounts_analyzed", JInt na);
                               ("inquiries_found", JInt ni)])]), 200%Z) /\
    counted (Some one_violation) nv.
Proof.
  assert (Hok : response_of (serve happy good_request)
  = inr (dumps (JObj [("status", JStr "success");
                      ("message", JStr "Credit report processed successfully");
                      ("data", JArr [analysis_record user url ocr_text report
                                       one_violation "Dear Bureau..."
                                       "2024-01-01T00:00:00"]);
                      ("summary",
                       JObj [("violations_found", JInt 1);
                             ("accounts_analyzed", JInt 1);
                             ("inquiries_found", JInt 0)])]), 200%Z))
    by reflexivity.
  split; [exact Hok|].
  destruct (summary_counts (P := sample_prompts) (C := scripted happy)
              good_request (model_replies happy) _ Hok)
    as (u & i & t & fields & v & l & stamp & data & nv & na & ni & Hin & Hbody & Hv & _).
  exists data, nv, na, ni. split.
  - rewrite Hok. now rewrite Hbody.
  - cbn in Hin. repeat destruct Hin as [Hin | Hin]; try discriminate; try contradiction.
    injection Hin as _ _ _ _ <- _ _ _. exact Hv.
Defined.


(** *** Further runs *)

Lemma object_body_is_always_answered_witness :
  (exists fields, @get_json sample_json good_request = inr (JObj fields)) /\
  exists body code, response_of (serve happy good_request) = inr (body, code).
Proof.
  split; [by_running|].
  destruct (object_body_is_always_answered (P := sample_prompts) (C := scripted happy)
              good_request (model_replies happy))
    as (body & code & Hr & _); [right; by_running|].
  now exists body, code.
Defined.

Lemma escape_comes_before_any_call_witness :
  response_of (serve happy (post (JInt 5)))
  = inl (Py.TypeError "argument of type 'int' is not iterable") /\
  trace_of (serve happy (post (JInt 5))) = [].
Proof.
  split; [reflexivity|].
  exact (proj1 (escape_comes_before_any_call (P := sample_prompts)
                  (C := scripted happy) (post (JInt 5)) (model_replies happy)
                  (Py.TypeError "argument of type 'int' is not iterable") eq_refl)).
Defined.

Lemma answer_shapes_witness :
  response_of (serve not_found good_request)
  = inr (@error_body sample_json
           "404 Client Error: Not Found for url: https://example.com/test-credit-report.pdf",
         500%Z) /\
  exists target r rest,
    trace_of (serve not_found good_request) = EvFetch target 30 r :: rest.
Proof.
  assert (Hr : response_of (serve not_found good_request)
  = inr (@error_body sample_json
           "404 Client Error: Not Found for url: https://example.com/test-credit-report.pdf",
         500%Z)) by reflexivity.
  split; [exact Hr|].
  destruct (answer_shapes (P := sample_prompts) (C := scripted not_found)
              good_request (model_replies not_found) _ _ Hr)
    as [(H & _) | [(_ & _ & H) | (H & _)]]; [discriminate | exact H | discriminate].
Defined.

Lemma fetch_targets_the_request_url_witness :
  In (EvFetch url 30 (ok_fetch 200 "OK")) (trace_of (serve happy good_request)) /\
  @read_field (@get_json_silent sample_json good_request) "pdf_url" = inr url.
Proof.
  assert (Hin : In (EvFetch url 30 (ok_fetch 200 "OK"))
                   (trace_of (serve happy good_request))) by (left; reflexivity).
  split; [exact Hin|].
  exact (proj1 (proj2 (fetch_targets_the_request_url (P := sample_prompts)
                         (C := scripted happy) good_request (model_replies happy)
                         _ _ _ Hin))).
Defined.

Lemma last_call_exception_is_the_message_witness :
  raised (EvGenerate
            (@letter_prompt sample_prompts (dumps personal_info) (dumps one_violation))
            (inl quota_exhausted)) = Some quota_exhausted /\
  response_of (serve letter_refused good_request)
  = inr (dumps (JObj [("status", JStr "error");
                      ("message", JStr "429 Quota exceeded")]), 500%Z).
Proof.
  split; [reflexivity|].
  apply (last_call_exception_is_the_message (J := sample_json) (P := sample_prompts)
           (C := scripted letter_refused) good_request (model_replies letter_refused)
           (firstn 5 (trace_of (serve letter_refused good_request)))
           (EvGenerate
              (@letter_prompt sample_prompts (dumps personal_info) (dumps one_violation))
              (inl quota_exhausted))
           quota_exhausted); reflexivity.
Defined.

Lemma non_object_report_stops_after_detection_witness :
  @structured _ sample_json sample_prompts (scripted number_report) good_request
              (model_replies number_report) url user ocr_text (JInt 5)
              (snd (@parse_credit_report_with_gemini _ sample_json sample_prompts
                      (scripted number_report) ocr_text (after_extract number_report))) /\
  response_of (serve number_report good_request)
  = inr (@error_body sample_json "'int' object has no attribute 'get'", 500%Z) /\
  List.length (trace_of (serve number_report good_request)) = 5%nat.
Proof.
  assert (Hst : @structured _ sample_json sample_prompts (scripted number_report)
              good_request (model_replies number_report) url user ocr_text (JInt 5)
              (snd (@parse_credit_report_with_gemini _ sample_json sample_prompts
                      (scripted number_report) ocr_text (after_extract number_report))))
    by by_running.
  split; [exact Hst|]. unfold serve.
  rewrite (non_object_report_stops_after_detection (P := sample_prompts)
             (C := scripted number_report) good_request (model_replies number_report)
             url user ocr_text (JInt 5) _ (JArr [])
             (snd (@detect_violations_with_gemini _ sample_json sample_prompts
                     (scripted number_report) (JInt 5)
                     (snd (@parse_credit_report_with_gemini _ sample_json sample_prompts
                             (scripted number_report) ocr_text
                             (after_extract number_report)))))
             Hst I eq_refl).
  split; reflexivity.
Defined.

Lemma success_is_seven_chained_calls_witness :
  status_of (serve happy good_request) = Some 200%Z /\
  List.length (trace_of (serve happy good_request)) = 7%nat.
Proof.
  split; [reflexivity|].
  assert (Hok : exists body, response_of (serve happy good_request) = inr (body, 200%Z))
    by (eexists; reflexivity).
  destruct Hok as [body Hok].
  destruct (success_is_seven_chained_calls (P := sample_prompts) (C := scripted happy)
              good_request (model_replies happy) body Hok)
    as (u & i & resp & pages & ocr & t & g1 & r1 & rep & g2 & r2 & v & info & g3 & l
        & stamp & data & Htr & _).
  unfold serve. now rewrite Htr.
Defined.

Lemma zero_pages_skips_ocr_witness :
  @pdf_reader_pages _ (scripted no_pages) pdf_bytes = inr 0%nat /\
  response_of (serve no_pages good_request)
  = inr (@error_body sample_json "PDF has no pages", 500%Z) /\
  fst (@extract_text_from_pdf_with_vision_ai _ (scripted no_pages) pdf_bytes
         (after_fetch no_pages))
  = inl (Py.ValueError "PDF has no pages").
Proof.
  split; [reflexivity|]. split; [reflexivity|].
  now rewrite (zero_pages_skips_ocr (C := scripted no_pages) pdf_bytes
                 (after_fetch no_pages) eq_refl).
Defined.

Lemma detect_rejects_unsized_reply_witness :
  @json_loads sample_json (strip_code_fence "5") = inr (JInt 5) /\
  sized (JInt 5) = false /\
  response_of (serve number_violations good_request)
  = inr (@error_body sample_json "object of type 'int' has no len()", 500%Z) /\
  fst (@detect_violations_with_gemini _ sample_json sample_prompts
         (scripted number_violations) report (after_parse number_violations))
  = inl (Py.TypeError "object of type 'int' has no len()").
Proof.
  split; [reflexivity|]. split; [reflexivity|]. split; [reflexivity|].
  now rewrite (detect_rejects_unsized_reply (J := sample_json) (P := sample_prompts)
                 (C := scripted number_violations) report
                 (after_parse number_violations) (GenResponse (inr "5")) []
                 "5" (JInt 5) eq_refl eq_refl eq_refl eq_refl).
Defined.

Lemma stored_yet_answered_500_witness :
  Py.lookup "accounts" [("accounts", JInt 3)] = Some (JInt 3) /\
  sized (JInt 3) = false /\
  response_of (serve_more odd_accounts good_request)
  = inr (@error_body more_json "object of type 'int' has no len()", 500%Z) /\
  existsb is_insert (trace_of (serve_more odd_accounts good_request)) = true.
Proof.
  split; [reflexivity|]. split; [reflexivity|]. split; [|reflexivity].
  refine (proj1 (stored_yet_answered_500 (J := more_json) (P := sample_prompts)
                   (C := scripted odd_accounts) good_request
                   (model_replies odd_accounts) url user ocr_text
                   [("accounts", JInt 3)] (JArr []) "Dear Bureau..."
                   (snd (@generate_dispute_letter_with_gemini _ more_json sample_prompts
                           (scripted odd_accounts) (JObj []) (JArr [])
                           (snd (@detect_violations_with_gemini _ more_json
                                   sample_prompts (scripted odd_accounts) odd_report
                                   (snd (@parse_credit_report_with_gemini _ more_json
                                           sample_prompts (scripted odd_accounts)
                                           ocr_text (after_extract odd_accounts)))))))
                   (JInt 3) _ _ eq_refl eq_refl eq_refl)).
  by_running.
Defined.

Lemma strip_code_fence_json_fence_witness :
  PyStr.all_space (PyStr.chars (nl ++ " ")) /\
  strip_code_fence ((nl ++ " ") ++ (fence_json_tag ++ "[]" ++ fence) ++ nl) = "[]".
Proof.
  assert (H1 : PyStr.all_space (PyStr.chars (nl ++ " "))) by (repeat constructor).
  split; [exact H1|].
  rewrite (FenceFacts.strip_code_fence_json_fence (nl ++ " ") nl "[]" H1);
    [reflexivity | repeat constructor].
Defined.

Lemma strip_code_fence_plain_fence_witness :
  PyStr.startswith "json" ("python" ++ nl ++ "[]" ++ nl) = false /\
  strip_code_fence ("" ++ (fence ++ ("python" ++ nl ++ "[]" ++ nl) ++ fence) ++ "")
  = "python" ++ nl ++ "[]".
Proof.
  split; [reflexivity|].
  rewrite (FenceFacts.strip_code_fence_plain_fence "" "" ("python" ++ nl ++ "[]" ++ nl));
    [reflexivity | constructor | constructor | reflexivity].
Defined.

Lemma blank_reply_never_parses_witness :
  PyStr.all_space (PyStr.chars (" " ++ nl)) /\
  strip_code_fence (" " ++ nl) = "".
Proof.
  assert (H : PyStr.all_space (PyStr.chars (" " ++ nl))) by (repeat constructor).
  split; [exact H|].
  exact (proj1 (FenceFacts.blank_reply_never_parses (J := sample_json) (" " ++ nl) H)).
Defined.

Lemma ocr_error_beats_text_witness :
  error_message (VisionResponse "Bad image data." (Some ocr_text)) <> "" /\
  response_of (serve ocr_complains good_request)
  = inr (@error_body sample_json "Vision AI error: Bad image data.", 500%Z) /\
  fst (@extract_text_from_pdf_with_vision_ai _ (scripted ocr_complains) pdf_bytes
         (after_fetch ocr_complains))
  = inl (Py.Exception "Vision AI error: Bad image data.").
Proof.
  split; [discriminate|]. split; [reflexivity|].
  now rewrite (ocr_error_beats_text (C := scripted ocr_complains) pdf_bytes
                 (after_fetch ocr_complains) 1
                 (VisionResponse "Bad image data." (Some ocr_text))
                 (model_replies ocr_complains) eq_refl
                 ltac:(discriminate) eq_refl ltac:(discriminate)).
Defined.

Lemma object_body_400_iff_witness :
  @get_json_silent sample_json (post payload_without_user)
  = JObj [("pdf_url", JStr "https://example.com/test-credit-report.pdf")] /\
  response_of (serve happy (post payload_without_user))
  = inr (@error_body sample_json "Missing pdf_url or user_id", 400%Z).
Proof.
  split; [reflexivity|].
  assert (Hbody : @get_json_silent sample_json (post payload_without_user)
    = JObj [("pdf_url", JStr "https://example.com/test-credit-report.pdf")])
    by reflexivity.
  apply (object_body_400_iff (J := sample_json) (P := sample_prompts)
           (C := scripted happy) (post payload_without_user) (model_replies happy)
           _ Hbody).
  now right.
Defined.

End SampleRuns.

(** ** The enumerations *)

Module DataModelFacts.
Import DataModel.

Lemma by_value_sound {A : Type} name (members : list A) value v m :
  by_value name members value v = inr m -> value m = v.
Proof.
  unfold by_value.
  destruct (find (fun m0 => String.eqb (value m0) v) members) as [m0|] eqn:Hf;
    [|discriminate].
  intros [= <-]. apply find_some in Hf. now apply String.eqb_eq.
Qed.

(** X20.  In each of the three enumerations the values are pairwise
    distinct, so looking a member up by value gives that member back,
    and a lookup that succeeds returns a member with exactly that
    value. *)
Theorem enum_lookup_round_trip :
  (forall m v, AccountStatus_of v = inr m <-> AccountStatus_value m = v) /\
  (forall m v, ViolationType_of v = inr m <-> ViolationType_value m = v) /\
  (forall m v, ViolationSeverity_of v = inr m <-> ViolationSeverity_value m = v).
Proof.
  repeat split; try apply by_value_sound; intros <-; now destruct m.
Qed.

End DataModelFacts.

(** ** The local checks *)

Module TestLocalFacts.
Import TestLocal.

Lemma report_required_found (env : environ) (var : string) :
  snd (report_required env var) = is_set (env var).
Proof.
  unfold report_required, is_set. destruct (env var) as [value|]; [|reflexivity].
  now destruct (negb (value =? "")).
Qed.

Lemma report_required_line (env : environ) (var : string) :
  fst (report_required env var) =
  if is_set (env var)
  then (Check, var ++ ": "
               ++ repeat_char "*" (Nat.min (String.length (getenv_str env var)) 10)
               ++ "...")
  else (Cross, var ++ ": Not set").
Proof.
  unfold report_required, is_set, getenv_str.
  destruct (env var) as [value|]; [|reflexivity].
  now destruct (negb (value =? "")).
Qed.

Lemma test_environment_setup_eq (env : environ) :
  test_environment_setup env =
  (([(Wrench, "Testing Environment Setup"); (Plain, repeat_char "=" 30)]
    ++ map (fun var => fst (report_required env var)) required_vars
    ++ map (report_optional env) optional_vars ++ [(Plain, "")])%list,
   forallb (fun var => is_set (env var)) required_vars).
Proof.
  unfold test_environment_setup, required_vars. cbn [fold_left map forallb].
  rewrite <- !report_required_found.
  destruct (report_required env "SUPABASE_URL") as [l1 [|]];
    destruct (report_required env "SUPABASE_KEY") as [l2 [|]];
    destruct (report_required env "GEMINI_API_KEY") as [l3 [|]]; reflexivity.
Qed.

(** X21.  The environment check passes exactly when each of the three
    required variables is set to a non-empty value; the optional
    variable has no say. *)
Theorem environment_verdict (env : environ) :
  snd (test_environment_setup env) = true <->
  forall var, In var required_vars -> is_set (env var) = true.
Proof.
  rewrite test_environment_setup_eq. cbn [snd].
  rewrite forallb_forall. reflexivity.
Qed.

(** X22.  Required values are masked: what the environment check
    prints and returns is the same for two environments that agree on
    the optional variable and, for each required variable, on whether
    it is set and on its length capped at ten. *)
Theorem required_values_are_masked (env env' : environ) :
  (forall var, In var required_vars ->
     is_set (env var) = is_set (env' var) /\
     Nat.min (String.length (getenv_str env var)) 10
     = Nat.min (String.length (getenv_str env' var)) 10) ->
  (forall var, In var optional_vars -> env var = env' var) ->
  test_environment_setup env = test_environment_setup env'.
Proof.
  intros Hreq Hopt. rewrite !test_environment_setup_eq.
  assert (Hlines : map (fun var => fst (report_required env var)) required_vars
                 = map (fun var => fst (report_required env' var)) required_vars).
  { apply map_ext_in. intros var Hin. rewrite !report_required_line.
    destruct (Hreq var Hin) as [-> ->]. reflexivity. }
  assert (Hverdict : forallb (fun var => is_set (env var)) required_vars
                   = forallb (fun var => is_set (env' var)) required_vars).
  { unfold required_vars in *. cbn [forallb].
    rewrite (proj1 (Hreq "SUPABASE_URL" ltac:(cbn; auto))).
    rewrite (proj1 (Hreq "SUPABASE_KEY" ltac:(cbn; auto))).
    now rewrite (proj1 (Hreq "GEMINI_API_KEY" ltac:(cbn; auto))). }
  assert (Hoptional : map (report_optional env) optional_vars
                    = map (report_optional env') optional_vars).
  { apply map_ext_in. intros var Hin. unfold report_optional.
    now rewrite (Hopt var Hin). }
  now rewrite Hlines, Hverdict, Hoptional.
Qed.

Lemma required_values_are_masked_witness :
  (forall var, In var required_vars ->
     is_set (full_env var) = is_set (other_secrets var) /\
     Nat.min (String.length (getenv_str full_env var)) 10
     = Nat.min (String.length (getenv_str other_secrets var)) 10) /\
  test_environment_setup full_env = test_environment_setup other_secrets.
Proof.
  assert (H : forall var, In var required_vars ->
     is_set (full_env var) = is_set (other_secrets var) /\
     Nat.min (String.length (getenv_str full_env var)) 10
     = Nat.min (String.length (getenv_str other_secrets var)) 10).
  { intros var [<- | [<- | [<- | []]]]; split; reflexivity. }
  split; [exact H|].
  apply (required_values_are_masked full_env other_secrets H).
  intros var [<- | []]. reflexivity.
Defined.

Section Checks.

Context {W : Type} {S : Services W}.

(** X23.  The datastore check's verdict.  Without both credentials it
    says no and touches nothing; otherwise it makes the client and then
    one query, and says yes exactly when both calls return. *)
Theorem supabase_check_verdict (env : environ) (w : W) :
  (is_set (env "SUPABASE_URL") && is_set (env "SUPABASE_KEY") = false ->
   exists printed, test_supabase_connection env w = (printed, false, w, [])) /\
  (verdict (test_supabase_connection env w) = true <->
   is_set (env "SUPABASE_URL") = true /\ is_set (env "SUPABASE_KEY") = true /\
   exists w1,
     create_client (getenv_str env "SUPABASE_URL") (getenv_str env "SUPABASE_KEY") w
       = (inr tt, w1) /\
     fst (select_one "credit_reports_analysis" w1) = inr tt).
Proof.
  unfold test_supabase_connection, verdict. cbv zeta.
  destruct (is_set (env "SUPABASE_URL")); destruct (is_set (env "SUPABASE_KEY"));
    cbn [negb orb andb fst snd];
    try (split; [eauto | split; [discriminate | now intros (? & ? & _)]]).
  split; [discriminate|].
  destruct (create_client _ _ w) as [[e|[]] w1]; cbn [fst snd].
  - split; [discriminate | now intros (_ & _ & w1' & [=] & _)].
  - destruct (select_one "credit_reports_analysis" w1) as [[e|[]] w2] eqn:Hq;
      cbn [fst snd].
    + split; [discriminate|].
      intros (_ & _ & w1' & [= <-] & Hs). rewrite Hq in Hs. discriminate.
    + split; [|reflexivity]. intros _. repeat split.
      exists w1. split; [reflexivity|]. now rewrite Hq.
Qed.

(** X24.  The model check's verdict.  Without the key it says no and
    makes no call; otherwise it asks once, and says yes exactly when
    the call returns a reply whose text is non-empty. *)
Theorem gemini_check_verdict (env : environ) (w : W) :
  (is_set (env "GEMINI_API_KEY") = false ->
   exists printed, test_gemini_api env w = (printed, false, w, [])) /\
  (verdict (test_gemini_api env w) = true <->
   is_set (env "GEMINI_API_KEY") = true /\
   exists response reply,
     fst (configured_generate (getenv_str env "GEMINI_API_KEY")
            "Hello, this is a test." w) = inr response /\
     text response = inr reply /\ reply <> "").
Proof.
  unfold test_gemini_api, verdict. cbv zeta.
  destruct (is_set (env "GEMINI_API_KEY")); cbn [negb];
    [|split; [eauto | split; [discriminate | now intros (? & _)]]].
  split; [discriminate|].
  destruct (configured_generate _ _ w) as [[e|response] w1]; cbn [fst snd].
  - split; [discriminate | now intros (_ & ? & ? & [=] & _)].
  - destruct (text response) as [e|reply] eqn:Ht.
    + split; [discriminate|].
      intros (_ & r & y & [= <-] & Hy & _). congruence.
    + destruct (String.eqb reply "") eqn:Hr; cbn [negb fst snd].
      * apply String.eqb_eq in Hr. split; [discriminate|].
        intros (_ & r & y & [= <-] & Hy & Hne). congruence.
      * apply String.eqb_neq in Hr. split; [|reflexivity].
        intros _. split; [reflexivity|]. exists response, reply. auto.
Qed.

End Checks.

End TestLocalFacts.
